(** * The OpenAI tool server of [mcp_server.py], embedded and verified

    The server advertises three tools ([chat_completion], [generate_image],
    [analyze_text]), routes every [call_tool] request to one handler and
    answers with a [CallToolResult].  The handlers are Python coroutines
    that read a [dict] of arguments, call the process-wide [openai_client]
    once and wrap what comes back.  They are embedded here as computations
    in a state-and-exception monad whose state logs the calls made on the
    client; the remote service, Python's [repr] and the validation error of
    the protocol library stay abstract.  The start-up code ([main] and the
    module-level statements) is embedded as a function from the environment
    to the events of the process and the way it exits.

    The first part holds the definitions, the second the lemmas and the
    theorems, the last a set of examples on a scripted backend. *)

From Stdlib Require Import ZArith String DecimalString.
From stdpp Require Import base gmap strings list.

Open Scope Z_scope.

(** ** Python values

    What a decoded JSON argument bundle can hold.  A [float] is kept as its
    IEEE-754 bit pattern: no handler computes with one. *)

#[warnings="-register-all"]
Inductive value : Type :=
  | VNone
  | VBool (b : bool)
  | VInt (z : Z)
  | VFloat (bits : Z)
  | VStr (s : string)
  | VList (l : list value)
  | VDict (d : gmap string value).

(** [d.get(key, default)] *)
Definition dict_get (d : gmap string value) (key : string) (dflt : value) : value :=
  match d !! key with
  | Some v => v
  | None => dflt
  end.

(** [v == "literal"]: only a [str] compares equal to a [str]. *)
Definition eq_str (v : value) (lit : string) : bool :=
  match v with
  | VStr s => String.eqb s lit
  | _ => false
  end.

(** ** Exceptions

    An [Exception] stands for an instance of Python's class [Exception]
    (or of a subclass), which is what [except Exception] catches;
    [exc_str] is what [str(e)] returns.  [SystemExit] is not an
    [Exception] and appears only in the model of the start-up code. *)

Record Exception := { exc_class : string; exc_str : string }.

Inductive outcome (A : Type) : Type :=
  | Returned (a : A)
  | Raised (e : Exception).
Arguments Returned {A} a.
Arguments Raised {A} e.

Definition IndexError : Exception :=
  {| exc_class := "IndexError"; exc_str := "list index out of range" |}.

(** ** Protocol types ([mcp.types]) *)

Record TextContent := { type : string; text : string }.

Record CallToolResult := { content : list TextContent; isError : bool }.

Record Tool := {
  name : string;
  description : string;
  inputSchema : gmap string value
}.

Record ListToolsResult := { tools : list Tool }.

(** ** Responses of the OpenAI client

    Only the attributes the handlers read: [response.choices[0].message.content]
    and [response.data[0].url], both optional strings in the client library. *)

Module openai.
Record ChatCompletionMessage := { content : option string }.
Record Choice := { message : ChatCompletionMessage }.
Record ChatCompletion := { choices : list Choice }.
Record Image := { url : option string }.
Record ImagesResponse := { data : list Image }.
End openai.

(** A call on [openai_client]: the method and its keyword arguments. *)
Inductive api := chat_completions_create | images_generate.

Record call := { method : api; kwargs : gmap string value }.

(** ** What lies outside the repository

    The remote service behind [openai_client] (it may answer or raise, and
    may change between calls), Python's [repr], and the exception that the
    protocol library raises when a [TextContent] is built with [text=None]. *)

Class Externals := {
  client : Type;
  chat_create : gmap string value -> client -> outcome openai.ChatCompletion * client;
  images_create : gmap string value -> client -> outcome openai.ImagesResponse * client;
  repr : value -> string;
  ValidationError : Exception
}.

Section Server.
Context `{Externals}.

(** [str(v)], which is also what an f-string field [{v}] inserts. *)
Definition str (v : value) : string :=
  match v with
  | VStr s => s
  | VNone => "None"
  | VBool true => "True"
  | VBool false => "False"
  | VInt z => NilZero.string_of_int (Z.to_int z)
  | VFloat _ | VList _ | VDict _ => repr v
  end.

(** [str] of an [Optional[str]] attribute. *)
Definition str_opt (o : option string) : string :=
  match o with
  | Some s => s
  | None => "None"
  end.

(** *** The monad of the handlers

    The state is the remote service together with the log of the calls
    made on [openai_client] so far; a computation returns or raises. *)

Record world := { backend : client; calls : list call }.

Definition M (A : Type) : Type := world -> outcome A * world.

Definition ret {A} (a : A) : M A := fun w => (Returned a, w).

Definition raise {A} (e : Exception) : M A := fun w => (Raised e, w).

Definition bind {A B} (m : M A) (k : A -> M B) : M B :=
  fun w =>
    match m w with
    | (Returned a, w') => k a w'
    | (Raised e, w') => (Raised e, w')
    end.

(** [try: body  except Exception as e: handler(e)] *)
Definition try_except {A} (body : M A) (handler : Exception -> M A) : M A :=
  fun w =>
    match body w with
    | (Returned a, w') => (Returned a, w')
    | (Raised e, w') => handler e w'
    end.

Notation "'do' x <- m ; k" := (bind m (fun x => k))
  (at level 10, x name, m at level 100, k at level 200).

(** [openai_client.chat.completions.create( **kw )] *)
Definition chat_completions_create_call (kw : gmap string value) : M openai.ChatCompletion :=
  fun w =>
    let '(r, b) := chat_create kw (backend w) in
    (r, {| backend := b;
           calls := calls w ++ [{| method := chat_completions_create; kwargs := kw |}] |}).

(** [openai_client.images.generate( **kw )] *)
Definition images_generate_call (kw : gmap string value) : M openai.ImagesResponse :=
  fun w =>
    let '(r, b) := images_create kw (backend w) in
    (r, {| backend := b;
           calls := calls w ++ [{| method := images_generate; kwargs := kw |}] |}).

(** [l[i]] *)
Definition getitem {A} (l : list A) (i : nat) : M A :=
  match l !! i with
  | Some x => ret x
  | None => raise IndexError
  end.

(** [TextContent(type=ty, text=t)] where [t] may be [None]: the protocol
    type accepts only a string for [text]. *)
Definition new_TextContent (ty : string) (t : option string) : M TextContent :=
  match t with
  | Some s => ret {| type := ty; text := s |}
  | None => raise ValidationError
  end.

(** *** The handlers *)

Definition handle_chat_completion (arguments : gmap string value) : M CallToolResult :=
  try_except
    (let message := dict_get arguments "message" (VStr "") in
     let model := dict_get arguments "model" (VStr "gpt-3.5-turbo") in
     let max_tokens := dict_get arguments "max_tokens" (VInt 1000) in
     do response <- chat_completions_create_call
                      {[ "model" := model;
                         "messages" := VList [VDict {[ "role" := VStr "user";
                                                       "content" := message ]}];
                         "max_tokens" := max_tokens ]} ;
     do choice <- getitem (openai.choices response) 0 ;
     let content := openai.content (openai.message choice) in
     do block <- new_TextContent "text" content ;
     ret {| content := [block]; isError := false |})
    (fun e =>
       ret {| content := [{| type := "text";
                             text := "Error in chat completion: " +:+ exc_str e |}];
              isError := true |}).

Definition handle_generate_image (arguments : gmap string value) : M CallToolResult :=
  try_except
    (let prompt := dict_get arguments "prompt" (VStr "") in
     let size := dict_get arguments "size" (VStr "1024x1024") in
     let quality := dict_get arguments "quality" (VStr "standard") in
     do response <- images_generate_call
                      {[ "model" := VStr "dall-e-3";
                         "prompt" := prompt;
                         "size" := size;
                         "quality" := quality;
                         "n" := VInt 1 ]} ;
     do image <- getitem (openai.data response) 0 ;
     let image_url := openai.url image in
     ret {| content := [{| type := "text";
                           text := "Generated image: " +:+ str_opt image_url |}];
            isError := false |})
    (fun e =>
       ret {| content := [{| type := "text";
                             text := "Error generating image: " +:+ exc_str e |}];
              isError := true |}).

Definition handle_analyze_text (arguments : gmap string value) : M CallToolResult :=
  try_except
    (let text := dict_get arguments "text" (VStr "") in
     let analysis_type := dict_get arguments "analysis_type" (VStr "summary") in
     let prompt :=
       if eq_str analysis_type "sentiment" then
         "Analyze the sentiment of this text: " +:+ str text
       else if eq_str analysis_type "keywords" then
         "Extract key keywords from this text: " +:+ str text
       else
         "Provide a brief summary of this text: " +:+ str text in
     do response <- chat_completions_create_call
                      {[ "model" := VStr "gpt-3.5-turbo";
                         "messages" := VList [VDict {[ "role" := VStr "user";
                                                       "content" := VStr prompt ]}];
                         "max_tokens" := VInt 500 ]} ;
     do choice <- getitem (openai.choices response) 0 ;
     let content := openai.content (openai.message choice) in
     do block <- new_TextContent "text" content ;
     ret {| content := [block]; isError := false |})
    (fun e =>
       ret {| content := [{| type := "text";
                             text := "Error analyzing text: " +:+ exc_str e |}];
              isError := true |}).

(** *** The catalog *)

Definition handle_list_tools : M ListToolsResult :=
  ret {| tools := [
    {| name := "chat_completion";
       description := "Send a message to OpenAI's chat completion API";
       inputSchema := {[
         "type" := VStr "object";
         "properties" := VDict {[
           "message" := VDict {[
             "type" := VStr "string";
             "description" := VStr "The message to send to OpenAI" ]};
           "model" := VDict {[
             "type" := VStr "string";
             "description" := VStr "The OpenAI model to use (default: gpt-3.5-turbo)";
             "default" := VStr "gpt-3.5-turbo" ]};
           "max_tokens" := VDict {[
             "type" := VStr "integer";
             "description" := VStr "Maximum tokens to generate";
             "default" := VInt 1000 ]} ]};
         "required" := VList [VStr "message"] ]} |};
    {| name := "generate_image";
       description := "Generate an image using OpenAI's DALL-E API";
       inputSchema := {[
         "type" := VStr "object";
         "properties" := VDict {[
           "prompt" := VDict {[
             "type" := VStr "string";
             "description" := VStr "The prompt for image generation" ]};
           "size" := VDict {[
             "type" := VStr "string";
             "description" := VStr "Image size (1024x1024, 1792x1024, 1024x1792)";
             "default" := VStr "1024x1024" ]};
           "quality" := VDict {[
             "type" := VStr "string";
             "description" := VStr "Image quality (standard, hd)";
             "default" := VStr "standard" ]} ]};
         "required" := VList [VStr "prompt"] ]} |};
    {| name := "analyze_text";
       description := "Analyze text using OpenAI's API";
       inputSchema := {[
         "type" := VStr "object";
         "properties" := VDict {[
           "text" := VDict {[
             "type" := VStr "string";
             "description" := VStr "The text to analyze" ]};
           "analysis_type" := VDict {[
             "type" := VStr "string";
             "description" := VStr "Type of analysis (sentiment, summary, keywords)";
             "default" := VStr "summary" ]} ]};
         "required" := VList [VStr "text"] ]} |}
  ] |}.

(** *** The dispatcher *)

Definition handle_call_tool (name : string) (arguments : gmap string value) : M CallToolResult :=
  if String.eqb name "chat_completion" then handle_chat_completion arguments
  else if String.eqb name "generate_image" then handle_generate_image arguments
  else if String.eqb name "analyze_text" then handle_analyze_text arguments
  else ret {| content := [{| type := "text"; text := "Unknown tool: " +:+ name |}];
              isError := true |}.

(** *** The dispatch loop

    The loop itself belongs to the protocol library ([Server.run]), and so
    does the wrapper that [@self.server.call_tool()] puts around
    [handle_call_tool]; neither is under [src/].  The loop is strictly one
    request in, one response out, in order; an exception that escaped a
    handler would end it here. *)

Inductive request :=
  | ListToolsRequest
  | CallToolRequest (name : string) (arguments : gmap string value).

Inductive response :=
  | ListToolsResponse (r : ListToolsResult)
  | CallToolResponse (r : CallToolResult).

(** Modelled from the spec: the dispatcher of its sections 4.4 and 5, which
    stands for the library's wrapper, absent from [src/].  As the spec has
    it, a request goes straight to the registered closure: no argument is
    checked against the declared schema on the way.  Whatever the
    library's wrapper does before it calls the closure is not modelled, so
    nothing stated on [dispatch] or [serve] speaks about that. *)
Definition dispatch (rq : request) : M response :=
  match rq with
  | ListToolsRequest =>
      do r <- handle_list_tools ; ret (ListToolsResponse r)
  | CallToolRequest name arguments =>
      do r <- handle_call_tool name arguments ; ret (CallToolResponse r)
  end.

(** Modelled from the spec: the loop of its section 5, absent from [src/]:
    the requests are answered one after the other, in their order. *)
Fixpoint serve (rqs : list request) : M (list response) :=
  match rqs with
  | [] => ret []
  | rq :: rest =>
      do r <- dispatch rq ;
      do rs <- serve rest ;
      ret (r :: rs)
  end.

End Server.

(** ** Reading the catalog

    The observations of a [ListToolsResult] that a client compares: the
    names, and per tool the declared fields, the required fields and the
    declared defaults. *)

Definition tool_names (r : ListToolsResult) : list string := name <$> tools r.

Definition find_tool (r : ListToolsResult) (n : string) : option Tool :=
  List.find (fun t => String.eqb (name t) n) (tools r).

Definition properties (t : Tool) : gmap string value :=
  match inputSchema t !! "properties" with
  | Some (VDict p) => p
  | _ => ∅
  end.

Definition field_set (t : Tool) : gset string := dom (properties t).

Definition required_fields (t : Tool) : list value :=
  match inputSchema t !! "required" with
  | Some (VList l) => l
  | _ => []
  end.

(** The default a property declares, if it declares one. *)
Definition default_of (property : value) : option value :=
  match property with
  | VDict f => f !! "default"
  | _ => None
  end.

Definition declared_defaults (t : Tool) : gmap string value :=
  omap default_of (properties t).

Definition declared_default (t : Tool) (field : string) : option value :=
  declared_defaults t !! field.

(** [sub] occurs in [s]. *)
Definition contains (s sub : string) : Prop :=
  exists before after, s = before +:+ sub +:+ after.

(** The names [handle_call_tool] routes to a handler. *)
Definition registered : list string :=
  ["chat_completion"; "generate_image"; "analyze_text"].

(** The fixed openings of the four diagnostics the server produces. *)
Definition diagnostics : list string :=
  ["Unknown tool: "; "Error in chat completion: ";
   "Error generating image: "; "Error analyzing text: "].

(** ** What the handlers are observed to do

    The vocabulary of the statements below: the keyword arguments each
    handler builds, the text it takes out of a reply, and the result it
    wraps that text or the exception in. *)

Section Observations.
Context `{Externals}.

(** A result with one text block. *)
Definition text_result (t : string) (err : bool) : CallToolResult :=
  {| content := [{| type := "text"; text := t |}]; isError := err |}.

(** The keyword arguments each handler builds from its argument bundle. *)
Definition chat_completion_kwargs (arguments : gmap string value) : gmap string value :=
  {[ "model" := dict_get arguments "model" (VStr "gpt-3.5-turbo");
     "messages" := VList [VDict {[ "role" := VStr "user";
                                   "content" := dict_get arguments "message" (VStr "") ]}];
     "max_tokens" := dict_get arguments "max_tokens" (VInt 1000) ]}.

Definition generate_image_kwargs (arguments : gmap string value) : gmap string value :=
  {[ "model" := VStr "dall-e-3";
     "prompt" := dict_get arguments "prompt" (VStr "");
     "size" := dict_get arguments "size" (VStr "1024x1024");
     "quality" := dict_get arguments "quality" (VStr "standard");
     "n" := VInt 1 ]}.

Definition analyze_text_prompt (arguments : gmap string value) : string :=
  let text := dict_get arguments "text" (VStr "") in
  let analysis_type := dict_get arguments "analysis_type" (VStr "summary") in
  if eq_str analysis_type "sentiment" then
    "Analyze the sentiment of this text: " +:+ str text
  else if eq_str analysis_type "keywords" then
    "Extract key keywords from this text: " +:+ str text
  else
    "Provide a brief summary of this text: " +:+ str text.

Definition analyze_text_kwargs (arguments : gmap string value) : gmap string value :=
  {[ "model" := VStr "gpt-3.5-turbo";
     "messages" := VList [VDict {[ "role" := VStr "user";
                                   "content" := VStr (analyze_text_prompt arguments) ]}];
     "max_tokens" := VInt 500 ]}.

(** The text a handler takes out of a reply, when the reply has it. *)
Definition chat_text (r : outcome openai.ChatCompletion) : outcome string :=
  match r with
  | Raised e => Raised e
  | Returned response =>
      match openai.choices response !! 0%nat with
      | None => Raised IndexError
      | Some choice =>
          match openai.content (openai.message choice) with
          | None => Raised ValidationError
          | Some s => Returned s
          end
      end
  end.

Definition image_text (r : outcome openai.ImagesResponse) : outcome string :=
  match r with
  | Raised e => Raised e
  | Returned response =>
      match openai.data response !! 0%nat with
      | None => Raised IndexError
      | Some image => Returned ("Generated image: " +:+ str_opt (openai.url image))
      end
  end.

(** The result a handler makes of that text, or of the exception. *)
Definition wrap (diagnostic : string) (r : outcome string) : CallToolResult :=
  match r with
  | Returned s => text_result s false
  | Raised e => text_result (diagnostic +:+ exc_str e) true
  end.

(** The world after one call on the client. *)
Definition after (w : world) (b : client) (c : call) : world :=
  {| backend := b; calls := calls w ++ [c] |}.

(** What the backend's reply to call [c] in state [b] holds for the handler
    (the text, or the exception met on the way to it) and the state the
    call leaves. *)
Definition reply_to (c : call) (b : client) : outcome string * client :=
  match method c with
  | chat_completions_create =>
      let reply := chat_create (kwargs c) b in (chat_text reply.1, reply.2)
  | images_generate =>
      let reply := images_create (kwargs c) b in (image_text reply.1, reply.2)
  end.

(** The text a handler returns for the reply to call [c], if it has one. *)
Definition output_of (c : call) (b : client) : option string :=
  match (reply_to c b).1 with
  | Returned s => Some s
  | Raised _ => None
  end.

(** The call a registered handler makes for an argument bundle. *)
Definition request_of (name : string) (arguments : gmap string value) : option call :=
  if String.eqb name "chat_completion" then
    Some {| method := chat_completions_create;
            kwargs := chat_completion_kwargs arguments |}
  else if String.eqb name "generate_image" then
    Some {| method := images_generate; kwargs := generate_image_kwargs arguments |}
  else if String.eqb name "analyze_text" then
    Some {| method := chat_completions_create; kwargs := analyze_text_kwargs arguments |}
  else None.

(** The exception the backend raises on call [c] in state [b], if it does,
    and the state it is left in. *)
Definition failure_of (c : call) (b : client) : option Exception * client :=
  match method c with
  | chat_completions_create =>
      match chat_create (kwargs c) b with
      | (Raised e, b') => (Some e, b')
      | (Returned _, b') => (None, b')
      end
  | images_generate =>
      match images_create (kwargs c) b with
      | (Raised e, b') => (Some e, b')
      | (Returned _, b') => (None, b')
      end
  end.

End Observations.

(** ** Calling the closure several times *)

Section Traffic.
Context `{Externals}.

(** [handle_call_tool] called directly on each pair of a name and a
    bundle, one call after the other, the results collected. *)
Fixpoint call_each (invocations : list (string * gmap string value))
    : M (list CallToolResult) :=
  match invocations with
  | [] => ret []
  | invocation :: rest =>
      bind (handle_call_tool invocation.1 invocation.2) (fun result =>
      bind (call_each rest) (fun results =>
      ret (result :: results)))
  end.

(** The call on the backend that such a call leads to, if it leads to one. *)
Definition backend_call (invocation : string * gmap string value) : option call :=
  request_of invocation.1 invocation.2.

End Traffic.

(** ** Start-up ([main] and the module-level statements before it) *)

(** [os.getenv(k)], on the environment as [load_dotenv()] left it. *)
Definition getenv (environ : gmap string string) (k : string) : option string :=
  environ !! k.

(** [not v] for an optional string: [None] and the empty string are false. *)
Definition py_not (v : option string) : bool :=
  match v with
  | None => true
  | Some s => String.eqb s ""
  end.

Record NotificationOptions := {
  tools_changed : bool;
  resources_changed : bool;
  prompts_changed : bool;
  roots_changed : bool
}.

Record InitializationOptions := {
  server_name : string;
  server_version : string;
  notification_options : NotificationOptions;
  experimental_capabilities : gmap string value
}.

(** What the process does that can be seen from outside: a line printed by
    the script, a protocol session on the standard streams, and the
    traceback the interpreter writes for an exception nobody caught. *)
Inductive event :=
  | print (line : string)
  | session (options : InitializationOptions)
  | traceback (e : Exception).

(** How the interpreter ends: the script ran to its end, [sys.exit(code)]
    was called, or an exception was never caught. *)
Inductive exit :=
  | Finished
  | SystemExit (code : Z)
  | Uncaught (e : Exception).

Definition exit_code (x : exit) : Z :=
  match x with
  | Finished => 0
  | SystemExit code => code
  | Uncaught _ => 1
  end.

(** The two library calls of the start-up code: the constructor
    [openai.OpenAI(api_key=...)], and the block
    [async with stdio_server() ...: await server.server.run(...)], which
    returns when the stream is closed cleanly. *)
Class Platform := {
  OpenAI : option string -> outcome unit;
  stdio_run : InitializationOptions -> outcome unit
}.

Section Script.
Context `{Platform}.

Definition main (environ : gmap string string) : list event * exit :=
  if py_not (getenv environ "OPENAI_API_KEY") then
    ([print "Error: OPENAI_API_KEY environment variable is not set";
      print "Please set your OpenAI API key in the .env file or environment"],
     SystemExit 1)
  else
    let options :=
      {| server_name := "openai-tools";
         server_version := "1.0.0";
         notification_options :=
           {| tools_changed := false;
              resources_changed := false;
              prompts_changed := false;
              roots_changed := false |};
         experimental_capabilities := ∅ |} in
    ([print "Starting OpenAI MCP Server...";
      print "Available tools:";
      print "- chat_completion: Send messages to OpenAI's chat completion API";
      print "- generate_image: Generate images using DALL-E";
      print "- analyze_text: Analyze text for sentiment, summary, or keywords";
      session options],
     match stdio_run options with
     | Returned _ => Finished
     | Raised e => Uncaught e
     end).

(** The statements of the module: the client is built when the module is
    loaded, then [asyncio.run(main())]. *)
Definition module_body (environ : gmap string string) : list event * exit :=
  match OpenAI (getenv environ "OPENAI_API_KEY") with
  | Raised e => ([], Uncaught e)
  | Returned _ => main environ
  end.

(** The process: the interpreter runs the module and reports an exception
    that was never caught. *)
Definition script (environ : gmap string string) : list event * exit :=
  let run := module_body environ in
  match run.2 with
  | Uncaught e => (run.1 ++ [traceback e], run.2)
  | _ => run
  end.

End Script.

(** The sessions a run of the process opened, in order. *)
Definition sessions (events : list event) : list InitializationOptions :=
  omap (fun ev => match ev with session options => Some options | _ => None end) events.

(** ** A scripted backend

    A stand-in for the remote service, used in the examples: the client
    state is the list of replies still to be given, and a call that finds
    no reply of its kind fails with a connection error. *)

Inductive canned :=
  | chat_reply (r : outcome openai.ChatCompletion)
  | image_reply (r : outcome openai.ImagesResponse).

Definition APIConnectionError : Exception :=
  {| exc_class := "APIConnectionError"; exc_str := "Connection error." |}.

Definition completion (s : string) : openai.ChatCompletion :=
  {| openai.choices := [{| openai.message := {| openai.content := Some s |} |}] |}.

Definition scripted : Externals :=
  {| client := list canned;
     chat_create := fun _ st =>
       match st with
       | chat_reply r :: rest => (r, rest)
       | _ :: rest => (Raised APIConnectionError, rest)
       | [] => (Raised APIConnectionError, [])
       end;
     images_create := fun _ st =>
       match st with
       | image_reply r :: rest => (r, rest)
       | _ :: rest => (Raised APIConnectionError, rest)
       | [] => (Raised APIConnectionError, [])
       end;
     repr := fun _ => "";
     ValidationError :=
       {| exc_class := "ValidationError";
          exc_str := "1 validation error for TextContent" |} |}.

Definition scripted_world (replies : list canned) (log : list call) : @world scripted :=
  @Build_world scripted replies log.

Definition start (replies : list canned) : @world scripted :=
  scripted_world replies [].

(** A platform for the examples: the constructor refuses a missing key,
    as the client library does, and the session ends cleanly. *)

Definition OpenAIError : Exception :=
  {| exc_class := "OpenAIError";
     exc_str := "The api_key client option must be set either by passing api_key to the client or by setting the OPENAI_API_KEY environment variable" |}.

Definition strict_platform : Platform :=
  {| OpenAI := fun api_key =>
       match api_key with
       | None => Raised OpenAIError
       | Some _ => Returned tt
       end;
     stdio_run := fun _ => Returned tt |}.

(** ** The market data client ([market_data.py])

    [PolygonMarketData] wraps four GET requests.  Each method builds a URL
    and a [dict] of query parameters, sends the request, and returns the
    decoded body, or prints a line and returns [None] when the request
    fails with a [RequestException].  The HTTP library and the data-frame
    library stay abstract. *)

Module market_data.

(** [truth(v)], as [if v:] tests it. *)
Definition truthy (v : value) : bool :=
  match v with
  | VNone => false
  | VBool b => b
  | VInt z => negb (z =? 0)
  | VFloat bits => negb (bits =? 0) && negb (bits =? 2 ^ 63)
  | VStr s => negb (String.eqb s "")
  | VList l => match l with [] => false | _ => true end
  | VDict d => negb (bool_decide (d = ∅))
  end.

(** [type(v).__name__] *)
Definition type_name (v : value) : string :=
  match v with
  | VNone => "NoneType"
  | VBool _ => "bool"
  | VInt _ => "int"
  | VFloat _ => "float"
  | VStr _ => "str"
  | VList _ => "list"
  | VDict _ => "dict"
  end.

Definition AttributeError (v : value) (attribute : string) : Exception :=
  {| exc_class := "AttributeError";
     exc_str := "'" +:+ type_name v +:+ "' object has no attribute '" +:+ attribute +:+ "'" |}.

Definition KeyError (key : string) : Exception :=
  {| exc_class := "KeyError"; exc_str := "'" +:+ key +:+ "'" |}.

(** Subscripting a value that is no [dict] with a string.  (For a list or
    a string the interpreter words the message differently; the methods
    below subscript only after [get] succeeded, that is, a [dict].) *)
Definition TypeError (v : value) : Exception :=
  {| exc_class := "TypeError";
     exc_str := "'" +:+ type_name v +:+ "' object is not subscriptable" |}.

(** A response of the HTTP library: what [raise_for_status()] and [json()]
    do on it. *)
Record Response := { raise_for_status : outcome unit; json : outcome value }.

(** What lies outside the repository: the network behind [requests.get],
    the test [isinstance(e, requests.exceptions.RequestException)], and the
    construction of the data frame from the decoded results (the four
    [pandas] statements of [get_historical_data]). *)
Class Requests := {
  network : Type;
  requests_get : string -> gmap string value -> network -> outcome Response * network;
  RequestException : Exception -> bool;
  DataFrame : Type;
  build_frame : value -> outcome DataFrame
}.

Record PolygonMarketData := { api_key : string; base_url : string }.

(** [PolygonMarketData(api_key)] *)
Definition new (api_key : value) : PolygonMarketData :=
  {| api_key := "QztWYDSNjj7NDdc4NsVOofjC6_RA8Ywg";
     base_url := "https://api.polygon.io" |}.

Section Client.
Context `{Requests}.

(** The state: the network, the requests sent so far (URL and query
    parameters) and the lines printed so far. *)
Record state := {
  net : network;
  sent : list (string * gmap string value);
  stdout : list string
}.

Definition IO (A : Type) : Type := state -> outcome A * state.

Definition ret {A} (a : A) : IO A := fun w => (Returned a, w).

Definition raise {A} (e : Exception) : IO A := fun w => (Raised e, w).

Definition bind {A B} (m : IO A) (k : A -> IO B) : IO B :=
  fun w =>
    match m w with
    | (Returned a, w') => k a w'
    | (Raised e, w') => (Raised e, w')
    end.

(** [try: body  except requests.exceptions.RequestException as e: handler(e)] *)
Definition try_except_RequestException {A} (body : IO A) (handler : Exception -> IO A) : IO A :=
  fun w =>
    match body w with
    | (Returned a, w') => (Returned a, w')
    | (Raised e, w') =>
        if RequestException e then handler e w' else (Raised e, w')
    end.

Notation "'do' x <- m ; k" := (bind m (fun x => k))
  (at level 10, x name, m at level 100, k at level 200).

(** The outcome of a call that touches no state. *)
Definition lift {A} (r : outcome A) : IO A := fun w => (r, w).

(** [requests.get(url, params=params)] *)
Definition get (url : string) (params : gmap string value) : IO Response :=
  fun w =>
    let '(r, n) := requests_get url params (net w) in
    (r, {| net := n; sent := sent w ++ [(url, params)]; stdout := stdout w |}).

(** [print(line)] *)
Definition print_line (line : string) : IO unit :=
  fun w => (Returned tt, {| net := net w; sent := sent w; stdout := stdout w ++ [line] |}).

(** [data.get(key)] *)
Definition value_get (data : value) (key : string) : IO value :=
  match data with
  | VDict d => ret (dict_get d key VNone)
  | _ => raise (AttributeError data "get")
  end.

(** [data[key]] *)
Definition value_getitem (data : value) (key : string) : IO value :=
  match data with
  | VDict d =>
      match d !! key with
      | Some v => ret v
      | None => raise (KeyError key)
      end
  | _ => raise (TypeError data)
  end.

Definition get_real_time_quote (self : PolygonMarketData) (symbol : string) : IO value :=
  let url := base_url self +:+ "/v2/snapshot/locale/us/markets/stocks/tickers/" +:+
             symbol +:+ "/quote" in
  let params : gmap string value := {[ "apiKey" := VStr (api_key self) ]} in
  try_except_RequestException
    (do response <- get url params ;
     do _ <- lift (raise_for_status response) ;
     lift (json response))
    (fun e =>
       do _ <- print_line ("Error fetching quote for " +:+ symbol +:+ ": " +:+ exc_str e) ;
       ret VNone).

(** [timespan] is [None] when the caller leaves it to its default. *)
Definition get_historical_data (self : PolygonMarketData)
    (symbol start_date end_date : string) (timespan : option string) : IO (option DataFrame) :=
  let timespan := default "day" timespan in
  let url := base_url self +:+ "/v2/aggs/ticker/" +:+ symbol +:+ "/range/1/" +:+
             timespan +:+ "/" +:+ start_date +:+ "/" +:+ end_date in
  let params : gmap string value :=
    {[ "apiKey" := VStr (api_key self);
       "adjusted" := VStr "true";
       "sort" := VStr "asc" ]} in
  try_except_RequestException
    (do response <- get url params ;
     do _ <- lift (raise_for_status response) ;
     do data <- lift (json response) ;
     do results <- value_get data "results" ;
     if truthy results then
       do rows <- value_getitem data "results" ;
       do df <- lift (build_frame rows) ;
       ret (Some df)
     else
       do _ <- print_line ("No data found for " +:+ symbol) ;
       ret None)
    (fun e =>
       do _ <- print_line ("Error fetching historical data for " +:+ symbol +:+ ": " +:+
                           exc_str e) ;
       ret None).

Definition get_market_status (self : PolygonMarketData) : IO value :=
  let url := base_url self +:+ "/v1/marketstatus/now" in
  let params : gmap string value := {[ "apiKey" := VStr (api_key self) ]} in
  try_except_RequestException
    (do response <- get url params ;
     do _ <- lift (raise_for_status response) ;
     lift (json response))
    (fun e =>
       do _ <- print_line ("Error fetching market status: " +:+ exc_str e) ;
       ret VNone).

Definition get_ticker_details (self : PolygonMarketData) (symbol : string) : IO value :=
  let url := base_url self +:+ "/v3/reference/tickers/" +:+ symbol in
  let params : gmap string value := {[ "apiKey" := VStr (api_key self) ]} in
  try_except_RequestException
    (do response <- get url params ;
     do _ <- lift (raise_for_status response) ;
     lift (json response))
    (fun e =>
       do _ <- print_line ("Error fetching ticker details for " +:+ symbol +:+ ": " +:+
                           exc_str e) ;
       ret VNone).

(** The request each method sends: the URL and the query parameters. *)
Definition quote_request (self : PolygonMarketData) (symbol : string)
    : string * gmap string value :=
  (base_url self +:+ "/v2/snapshot/locale/us/markets/stocks/tickers/" +:+ symbol +:+ "/quote",
   {[ "apiKey" := VStr (api_key self) ]}).

Definition history_request (self : PolygonMarketData)
    (symbol start_date end_date : string) (timespan : option string)
    : string * gmap string value :=
  (base_url self +:+ "/v2/aggs/ticker/" +:+ symbol +:+ "/range/1/" +:+
   default "day" timespan +:+ "/" +:+ start_date +:+ "/" +:+ end_date,
   {[ "apiKey" := VStr (api_key self); "adjusted" := VStr "true"; "sort" := VStr "asc" ]}).

Definition status_request (self : PolygonMarketData) : string * gmap string value :=
  (base_url self +:+ "/v1/marketstatus/now", {[ "apiKey" := VStr (api_key self) ]}).

Definition details_request (self : PolygonMarketData) (symbol : string)
    : string * gmap string value :=
  (base_url self +:+ "/v3/reference/tickers/" +:+ symbol,
   {[ "apiKey" := VStr (api_key self) ]}).

(** What the four methods have in common: the request, the status check
    and the decoding of the body, with the state the request leaves. *)
Definition fetch (rq : string * gmap string value) (w : state) : outcome value * state :=
  (do response <- get rq.1 rq.2 ;
   do _ <- lift (raise_for_status response) ;
   lift (json response)) w.

(** The state after one more printed line. *)
Definition printed (w : state) (line : string) : state :=
  {| net := net w; sent := sent w; stdout := stdout w ++ [line] |}.

(** What [get_historical_data] makes of a decoded body. *)
Definition frame_of (symbol : string) (data : value) (w : state)
    : outcome (option DataFrame) * state :=
  match data with
  | VDict d =>
      if truthy (dict_get d "results" VNone) then
        match build_frame (dict_get d "results" VNone) with
        | Returned df => (Returned (Some df), w)
        | Raised e => (Raised e, w)
        end
      else (Returned None, printed w ("No data found for " +:+ symbol))
  | _ => (Raised (AttributeError data "get"), w)
  end.

End Client.

(** A scripted network for the examples: the state is the list of the
    responses still to come; a request that finds none fails to connect.
    Only the exceptions of class [ConnectionError] and [HTTPError] count as
    request exceptions, and a data frame is kept as its rows. *)
Definition ConnectionError : Exception :=
  {| exc_class := "ConnectionError"; exc_str := "Connection refused" |}.

Definition HTTPError (message : string) : Exception :=
  {| exc_class := "HTTPError"; exc_str := message |}.

Definition scripted : Requests :=
  {| network := list Response;
     requests_get := fun _ _ st =>
       match st with
       | response :: rest => (Returned response, rest)
       | [] => (Raised ConnectionError, [])
       end;
     RequestException := fun e =>
       String.eqb (exc_class e) "ConnectionError" || String.eqb (exc_class e) "HTTPError";
     DataFrame := value;
     build_frame := fun rows => Returned rows |}.

Definition start (responses : list Response) : @state scripted :=
  @Build_state scripted responses [] [].

Definition ok_response (body : value) : Response :=
  {| raise_for_status := Returned tt; json := Returned body |}.

End market_data.

(** ** The environment test ([test_mcp_server.py])

    A script that checks the key and the three packages, then sends one
    small completion request.  The import system, the client constructor
    and the remote service stay abstract. *)

Module test_mcp_server.

Definition newline : string := String (Ascii.ascii_of_nat 10) "".

(** [import name], the test [isinstance(e, ImportError)], the constructor
    [openai.OpenAI(api_key=...)] and [client.chat.completions.create]. *)
Class Platform := {
  import_module : string -> outcome unit;
  ImportError : Exception -> bool;
  new_client : option string -> outcome unit;
  create : gmap string value -> outcome openai.ChatCompletion
}.

Section Script.
Context `{Platform}.

(** The state: the arguments of the calls of [print] so far and the
    requests sent to the remote service so far. *)
Record state := { out : list string; requests : list (gmap string value) }.

Definition T (A : Type) : Type := state -> outcome A * state.

Definition ret {A} (a : A) : T A := fun w => (Returned a, w).

Definition bind {A B} (m : T A) (k : A -> T B) : T B :=
  fun w =>
    match m w with
    | (Returned a, w') => k a w'
    | (Raised e, w') => (Raised e, w')
    end.

Definition lift {A} (r : outcome A) : T A := fun w => (r, w).

(** [try: body  except ImportError: handler] *)
Definition try_except_ImportError {A} (body : T A) (handler : T A) : T A :=
  fun w =>
    match body w with
    | (Returned a, w') => (Returned a, w')
    | (Raised e, w') => if ImportError e then handler w' else (Raised e, w')
    end.

(** [try: body  except Exception as e: handler(e)] *)
Definition try_except {A} (body : T A) (handler : Exception -> T A) : T A :=
  fun w =>
    match body w with
    | (Returned a, w') => (Returned a, w')
    | (Raised e, w') => handler e w'
    end.

Notation "'do' x <- m ; k" := (bind m (fun x => k))
  (at level 10, x name, m at level 100, k at level 200).

Definition print (s : string) : T unit :=
  fun w => (Returned tt, {| out := out w ++ [s]; requests := requests w |}).

(** [client.chat.completions.create( **kw )] *)
Definition create_call (kw : gmap string value) : T openai.ChatCompletion :=
  fun w => (create kw, {| out := out w; requests := requests w ++ [kw] |}).

(** [l[0]] *)
Definition first {A} (l : list A) : T A :=
  match l with
  | x :: _ => ret x
  | [] => lift (Raised IndexError)
  end.

(** One package check of [test_environment]: [Some false] stands for the
    [return False] of the [except] branch, [None] for falling through. *)
Definition check_package (module installed missing : string) : T (option bool) :=
  try_except_ImportError
    (do _ <- lift (import_module module) ;
     do _ <- print installed ;
     ret None)
    (do _ <- print missing ;
     ret (Some false)).

Definition test_environment (environ : gmap string string) : T bool :=
  do _ <- print "Testing environment setup..." ;
  let api_key := getenv environ "OPENAI_API_KEY" in
  if py_not api_key then
    do _ <- print "❌ OPENAI_API_KEY not found in environment" ;
    do _ <- print "Please create a .env file with your OpenAI API key:" ;
    do _ <- print "OPENAI_API_KEY=your_actual_api_key_here" ;
    ret false
  else
    do _ <- print "✅ OPENAI_API_KEY found" ;
    do r <- check_package "openai"
              "✅ openai package installed" "❌ openai package not installed" ;
    match r with
    | Some b => ret b
    | None =>
        do r <- check_package "mcp"
                  "✅ mcp package installed" "❌ mcp package not installed" ;
        match r with
        | Some b => ret b
        | None =>
            do r <- check_package "dotenv"
                      "✅ python-dotenv package installed"
                      "❌ python-dotenv package not installed" ;
            match r with
            | Some b => ret b
            | None => ret true
            end
        end
    end.

Definition test_openai_connection (environ : gmap string string) : T bool :=
  do _ <- print (newline +:+ "Testing OpenAI API connection...") ;
  try_except
    (do _ <- lift (import_module "openai") ;
     do _ <- lift (new_client (getenv environ "OPENAI_API_KEY")) ;
     do response <- create_call
                      {[ "model" := VStr "gpt-3.5-turbo";
                         "messages" :=
                           VList [VDict {[ "role" := VStr "user";
                                           "content" := VStr "Hello, this is a test message." ]}];
                         "max_tokens" := VInt 10 ]} ;
     do _ <- print "✅ OpenAI API connection successful" ;
     do choice <- first (openai.choices response) ;
     do _ <- print ("Response: " +:+ str_opt (openai.content (openai.message choice))) ;
     ret true)
    (fun e =>
       do _ <- print ("❌ OpenAI API connection failed: " +:+ exc_str e) ;
       ret false).

(** [main()]: the value is the way the function ends, [Finished] for
    running to its end and [SystemExit 1] for [sys.exit(1)]. *)
Definition main (environ : gmap string string) : T exit :=
  do _ <- print "OpenAI MCP Server Test" ;
  do _ <- print "==============================" ;
  do ok <- test_environment environ ;
  if negb ok then
    do _ <- print (newline +:+ "❌ Environment setup failed. Please fix the issues above.") ;
    ret (SystemExit 1)
  else
    do ok <- test_openai_connection environ ;
    if negb ok then
      do _ <- print (newline +:+ "❌ OpenAI API test failed. Please check your API key.") ;
      ret (SystemExit 1)
    else
      do _ <- print (newline +:+ "✅ All tests passed!") ;
      do _ <- print (newline +:+ "You can now run the MCP server with:") ;
      do _ <- print "python mcp_server.py" ;
      ret Finished.

(** The script: [from dotenv import load_dotenv], then [main()]; an
    exception that nobody caught ends the process.  A package that was
    imported once is found again, so one [import_module] answers for both
    imports of [dotenv]. *)
Definition script (environ : gmap string string) : exit * state :=
  let w0 := {| out := []; requests := [] |} in
  match import_module "dotenv" with
  | Raised e => (Uncaught e, w0)
  | Returned _ =>
      match main environ w0 with
      | (Returned x, w) => (x, w)
      | (Raised e, w) => (Uncaught e, w)
      end
  end.

(** The environment is in order: the key is set and the three packages
    can be imported. *)
Definition environment_ok (environ : gmap string string) : bool :=
  negb (py_not (getenv environ "OPENAI_API_KEY")) &&
  forallb (fun module => match import_module module with
                         | Returned _ => true
                         | Raised _ => false
                         end) ["openai"; "mcp"; "dotenv"].

End Script.

(** A platform for the examples: every package but [mcp] is installed, and
    the service answers. *)
Definition ModuleNotFoundError (module : string) : Exception :=
  {| exc_class := "ModuleNotFoundError";
     exc_str := "No module named '" +:+ module +:+ "'" |}.

Definition without_mcp : Platform :=
  {| import_module := fun module =>
       if String.eqb module "mcp" then Raised (ModuleNotFoundError module)
       else Returned tt;
     ImportError := fun e => String.eqb (exc_class e) "ModuleNotFoundError"
                              || String.eqb (exc_class e) "ImportError";
     new_client := fun _ => Returned tt;
     create := fun _ => Returned (completion "Hi") |}.


End test_mcp_server.

(** * Properties *)

Section Properties.
Context `{Externals}.

(** *** Each handler is one backend call followed by wrapping *)

Lemma handle_chat_completion_run arguments w :
  handle_chat_completion arguments w =
    let kw := chat_completion_kwargs arguments in
    let reply := chat_create kw (backend w) in
    (Returned (wrap "Error in chat completion: " (chat_text reply.1)),
     after w reply.2 {| method := chat_completions_create; kwargs := kw |}).
Proof.
  unfold handle_chat_completion, try_except, bind, chat_completions_create_call,
    chat_completion_kwargs, after, getitem, new_TextContent, ret, raise.
  cbv zeta.
  destruct (chat_create _ (backend w)) as [[response|e] b]; simpl; [|done].
  destruct (openai.choices response) as [|choice rest]; simpl; [done|].
  by destruct (openai.content (openai.message choice)).
Qed.

Lemma handle_generate_image_run arguments w :
  handle_generate_image arguments w =
    let kw := generate_image_kwargs arguments in
    let reply := images_create kw (backend w) in
    (Returned (wrap "Error generating image: " (image_text reply.1)),
     after w reply.2 {| method := images_generate; kwargs := kw |}).
Proof.
  unfold handle_generate_image, try_except, bind, images_generate_call,
    generate_image_kwargs, after, getitem, ret, raise.
  cbv zeta.
  destruct (images_create _ (backend w)) as [[response|e] b]; simpl; [|done].
  by destruct (openai.data response) as [|image rest].
Qed.

Lemma handle_analyze_text_run arguments w :
  handle_analyze_text arguments w =
    let kw := analyze_text_kwargs arguments in
    let reply := chat_create kw (backend w) in
    (Returned (wrap "Error analyzing text: " (chat_text reply.1)),
     after w reply.2 {| method := chat_completions_create; kwargs := kw |}).
Proof.
  unfold handle_analyze_text, try_except, bind, chat_completions_create_call,
    analyze_text_kwargs, analyze_text_prompt, after, getitem, new_TextContent,
    ret, raise.
  cbv zeta.
  destruct (chat_create _ (backend w)) as [[response|e] b]; simpl; [|done].
  destruct (openai.choices response) as [|choice rest]; simpl; [done|].
  by destruct (openai.content (openai.message choice)).
Qed.

(** *** Routing *)

Lemma handle_call_tool_unknown name arguments :
  name ∉ registered ->
  handle_call_tool name arguments = ret (text_result ("Unknown tool: " +:+ name) true).
Proof.
  intros Hname. unfold handle_call_tool, registered in *.
  destruct (String.eqb_spec name "chat_completion") as [->|_]; [set_solver|].
  destruct (String.eqb_spec name "generate_image") as [->|_]; [set_solver|].
  destruct (String.eqb_spec name "analyze_text") as [->|_]; [set_solver|].
  done.
Qed.

Lemma registered_cases name :
  name ∈ registered ->
  name = "chat_completion" \/ name = "generate_image" \/ name = "analyze_text".
Proof.
  unfold registered. rewrite !elem_of_cons, elem_of_nil. tauto.
Qed.

End Properties.

Section Dispatch.
Context `{Externals}.

Lemma diagnostics_elem d :
  d ∈ diagnostics <->
  d = "Unknown tool: " \/ d = "Error in chat completion: " \/
  d = "Error generating image: " \/ d = "Error analyzing text: ".
Proof.
  unfold diagnostics. rewrite !elem_of_cons, elem_of_nil. tauto.
Qed.

Lemma request_of_registered name arguments :
  name ∈ registered <-> is_Some (request_of name arguments).
Proof.
  unfold request_of. split.
  - intros Hin. by apply registered_cases in Hin as [ -> | [ -> | -> ] ].
  - unfold registered. rewrite !elem_of_cons.
    destruct (String.eqb_spec name "chat_completion"); [tauto|].
    destruct (String.eqb_spec name "generate_image"); [tauto|].
    destruct (String.eqb_spec name "analyze_text"); [tauto|].
    by intros [c Hc].
Qed.

(** A registered tool: one call on the backend, and the reply wrapped with
    the handler's own diagnostic. *)
Lemma handle_call_tool_run name arguments w c :
  request_of name arguments = Some c ->
  exists diagnostic,
    diagnostic ∈ diagnostics /\
    handle_call_tool name arguments w =
      (Returned (wrap diagnostic (reply_to c (backend w)).1),
       after w (reply_to c (backend w)).2 c).
Proof.
  unfold request_of, handle_call_tool, reply_to.
  destruct (String.eqb name "chat_completion").
  { intros [= <-]. exists "Error in chat completion: ".
    split; [apply diagnostics_elem; tauto|]. apply handle_chat_completion_run. }
  destruct (String.eqb name "generate_image").
  { intros [= <-]. exists "Error generating image: ".
    split; [apply diagnostics_elem; tauto|]. apply handle_generate_image_run. }
  destruct (String.eqb name "analyze_text"); [|done].
  intros [= <-]. exists "Error analyzing text: ".
  split; [apply diagnostics_elem; tauto|]. apply handle_analyze_text_run.
Qed.

(** Whatever the tool name, the dispatcher returns a result. *)
Lemma handle_call_tool_returns name arguments w :
  exists result w', handle_call_tool name arguments w = (Returned result, w').
Proof.
  destruct (request_of name arguments) as [c|] eqn:Hc.
  - destruct (handle_call_tool_run name arguments w c Hc) as (d & _ & ->). eauto.
  - rewrite handle_call_tool_unknown; [unfold ret; eauto|].
    rewrite request_of_registered, Hc. by intros [? ?].
Qed.

Lemma dispatch_returns rq w :
  exists r w', dispatch rq w = (Returned r, w').
Proof.
  destruct rq as [|name arguments]; unfold dispatch, bind.
  - unfold handle_list_tools, ret. eauto.
  - destruct (handle_call_tool_returns name arguments w) as (result & w' & ->).
    unfold ret. eauto.
Qed.

(** The loop answers every request of the stream, one response each. *)
Lemma serve_returns rqs :
  forall w, exists rs w',
    serve rqs w = (Returned rs, w') /\ length rs = length rqs.
Proof.
  induction rqs as [|rq rest IH]; intros w; simpl.
  - unfold ret. eauto.
  - unfold bind at 1.
    destruct (dispatch_returns rq w) as (r & w1 & ->).
    unfold bind at 1.
    destruct (IH w1) as (rs & w2 & -> & Hlen).
    unfold ret. exists (r :: rs), w2. simpl. by rewrite Hlen.
Qed.

(** C1: for every tool name and every argument bundle, [handle_call_tool]
    returns (it does not raise) one result with a single text block; the
    result either has [isError = false] and carries the text that the
    handler took out of the reply to its one backend call, or has
    [isError = true] and carries one of the server's diagnostics. *)
Theorem call_tool_always_answers name arguments w :
  exists result w',
    handle_call_tool name arguments w = (Returned result, w') /\
    exists t,
      content result = [{| type := "text"; text := t |}] /\
      ((isError result = false /\
        exists c, calls w' = calls w ++ [c] /\ output_of c (backend w) = Some t)
       \/
       (isError result = true /\
        exists d msg, d ∈ diagnostics /\ t = d +:+ msg)).
Proof.
  destruct (request_of name arguments) as [c|] eqn:Hc.
  - destruct (handle_call_tool_run name arguments w c Hc) as (d & Hd & ->).
    eexists _, _. split; [reflexivity|]. unfold output_of.
    destruct (reply_to c (backend w)).1 as [s|e] eqn:Hreply; simpl.
    + exists s. split; [done|]. left. split; [done|].
      exists c. by rewrite Hreply.
    + eexists. split; [done|]. right. split; [done|].
      by exists d, (exc_str e).
  - assert (Hname : name ∉ registered).
    { rewrite request_of_registered, Hc. by intros [? ?]. }
    rewrite handle_call_tool_unknown by done.
    eexists _, _. split; [reflexivity|].
    eexists. split; [reflexivity|].
    right. split; [done|]. exists "Unknown tool: ", name.
    split; [apply diagnostics_elem; tauto|done].
Qed.

(** C2: a tool name that is not registered gets the result with
    [isError = true] and the single text block "Unknown tool: " followed
    by the name, and the world is left as it was: no call reaches the
    backend. *)
Theorem unknown_tool_is_reported name arguments w :
  name ∉ registered ->
  handle_call_tool name arguments w =
    (Returned {| content := [{| type := "text"; text := "Unknown tool: " +:+ name |}];
                 isError := true |}, w).
Proof.
  intros Hname. by rewrite handle_call_tool_unknown.
Qed.

End Dispatch.

(** The specification's example: [call_tool("nonexistent_tool", {})]. *)
Lemma unknown_tool_example :
  ("nonexistent_tool" ∉ registered) /\
  handle_call_tool (H := scripted) "nonexistent_tool" ∅ (start []) =
    (Returned {| content := [{| type := "text";
                                text := "Unknown tool: nonexistent_tool" |}];
                 isError := true |}, start []).
Proof.
  assert (Hname : "nonexistent_tool" ∉ registered).
  { unfold registered. rewrite !not_elem_of_cons. repeat split; try done.
    apply not_elem_of_nil. }
  split; [exact Hname|].
  exact (unknown_tool_is_reported "nonexistent_tool" ∅ (start []) Hname).
Defined.

(** * Backend failures *)

Lemma append_empty_r (s : string) : s +:+ "" = s.
Proof.
  induction s as [|a s IH]; [reflexivity|].
  change (String a (s +:+ "") = String a s). by f_equal.
Qed.

Lemma contains_suffix (before sub : string) : contains (before +:+ sub) sub.
Proof. exists before, "". by rewrite append_empty_r. Qed.

Section Failures.
Context `{Externals}.

Lemma failure_reply c b e b' :
  failure_of c b = (Some e, b') -> reply_to c b = (Raised e, b').
Proof.
  unfold failure_of, reply_to. destruct (method c).
  - destruct (chat_create (kwargs c) b) as [[response|e0] b0]; by intros [= <- <-].
  - destruct (images_create (kwargs c) b) as [[response|e0] b0]; by intros [= <- <-].
Qed.

(** C3: when the backend raises on the call of a registered handler, the
    handler returns (it does not raise) a result with [isError = true]
    whose text contains the message of the exception; the call is on the
    log, the backend is in the state the failed call left, and from that
    world the dispatch loop answers every further request. *)
Theorem backend_failure_is_reported name arguments w c e b' :
  request_of name arguments = Some c ->
  failure_of c (backend w) = (Some e, b') ->
  exists t,
    handle_call_tool name arguments w =
      (Returned {| content := [{| type := "text"; text := t |}]; isError := true |},
       {| backend := b'; calls := calls w ++ [c] |}) /\
    contains t (exc_str e) /\
    (forall name' arguments', exists result w',
       handle_call_tool name' arguments' {| backend := b'; calls := calls w ++ [c] |} =
         (Returned result, w')) /\
    (forall rqs, exists rs w',
       serve rqs {| backend := b'; calls := calls w ++ [c] |} = (Returned rs, w') /\
       length rs = length rqs).
Proof.
  intros Hc Hfail.
  destruct (handle_call_tool_run name arguments w c Hc) as (d & _ & ->).
  rewrite (failure_reply _ _ _ _ Hfail). simpl.
  exists (d +:+ exc_str e). split; [done|].
  split; [apply contains_suffix|].
  split.
  - intros name' arguments'. apply handle_call_tool_returns.
  - intros rqs. apply serve_returns.
Qed.

End Failures.

(** Failure injection: the first completion call fails with a connection
    error; the result reports it, and the next request is answered. *)
Lemma backend_failure_example :
  let w := start [chat_reply (Raised APIConnectionError);
                  chat_reply (Returned (completion "fine"))] in
  let arguments : gmap string value := {[ "message" := VStr "hi" ]} in
  let c := {| method := chat_completions_create;
              kwargs := chat_completion_kwargs arguments |} in
  let w1 := scripted_world [chat_reply (Returned (completion "fine"))] [c] in
  request_of (H := scripted) "chat_completion" arguments = Some c /\
  failure_of c (backend w) =
    (Some APIConnectionError, [chat_reply (Returned (completion "fine"))]) /\
  handle_call_tool "chat_completion" arguments w =
    (Returned {| content := [{| type := "text";
                                text := "Error in chat completion: Connection error." |}];
                 isError := true |}, w1) /\
  (handle_call_tool "analyze_text" {[ "text" := VStr "ok" ]} w1).1 =
    Returned {| content := [{| type := "text"; text := "fine" |}]; isError := false |} /\
  exists t,
    (handle_call_tool "chat_completion" arguments w).1 =
      Returned {| content := [{| type := "text"; text := t |}]; isError := true |} /\
    contains t "Connection error.".
Proof.
  intros w arguments c w1.
  assert (Hc : request_of (H := scripted) "chat_completion" arguments = Some c)
    by reflexivity.
  assert (Hf : failure_of c (backend w) =
                 (Some APIConnectionError, [chat_reply (Returned (completion "fine"))]))
    by reflexivity.
  split; [exact Hc|]. split; [exact Hf|].
  split; [reflexivity|]. split; [reflexivity|].
  destruct (backend_failure_is_reported (H := scripted)
              "chat_completion" arguments w c APIConnectionError _ Hc Hf)
    as (t & Hrun & Hcontains & _).
  exists t. split; [by rewrite Hrun|exact Hcontains].
Defined.

(** * What the handlers send to the backend *)

Section Requests.
Context `{Externals}.

Lemma chat_completion_calls arguments w :
  calls (handle_chat_completion arguments w).2 =
    calls w ++ [{| method := chat_completions_create;
                   kwargs := chat_completion_kwargs arguments |}].
Proof. by rewrite handle_chat_completion_run. Qed.

Lemma generate_image_calls arguments w :
  calls (handle_generate_image arguments w).2 =
    calls w ++ [{| method := images_generate;
                   kwargs := generate_image_kwargs arguments |}].
Proof. by rewrite handle_generate_image_run. Qed.

Lemma analyze_text_calls arguments w :
  calls (handle_analyze_text arguments w).2 =
    calls w ++ [{| method := chat_completions_create;
                   kwargs := analyze_text_kwargs arguments |}].
Proof. by rewrite handle_analyze_text_run. Qed.

Lemma dict_get_missing (d : gmap string value) key dflt :
  d !! key = None -> dict_get d key dflt = dflt.
Proof. unfold dict_get. by intros ->. Qed.

Lemma dict_get_insert_ne (d : gmap string value) key key' v dflt :
  key' ≠ key -> dict_get (<[key' := v]> d) key dflt = dict_get d key dflt.
Proof. intros Hne. unfold dict_get. by rewrite lookup_insert_ne. Qed.

Lemma dict_get_insert_default (d : gmap string value) key dflt :
  d !! key = None -> dict_get (<[key := dflt]> d) key dflt = dict_get d key dflt.
Proof.
  intros Hnone. unfold dict_get. by rewrite lookup_insert_eq, Hnone.
Qed.

(** C4: [handle_chat_completion] makes one completion call; when the
    bundle has no [model] the call carries "gpt-3.5-turbo", when it has no
    [max_tokens] the call carries 1000, and these are the defaults that
    the catalog declares for the two fields.  For the bundle
    [{"message": "hi"}] the keyword arguments are exactly the message
    with the two defaults. *)
Theorem chat_completion_defaults arguments w :
  exists kw,
    calls (handle_chat_completion arguments w).2 =
      calls w ++ [{| method := chat_completions_create; kwargs := kw |}] /\
    (arguments !! "model" = None -> kw !! "model" = Some (VStr "gpt-3.5-turbo")) /\
    (arguments !! "max_tokens" = None -> kw !! "max_tokens" = Some (VInt 1000)) /\
    (exists catalog tool,
       handle_list_tools w = (Returned catalog, w) /\
       find_tool catalog "chat_completion" = Some tool /\
       declared_default tool "model" = Some (VStr "gpt-3.5-turbo") /\
       declared_default tool "max_tokens" = Some (VInt 1000)) /\
    (arguments = {[ "message" := VStr "hi" ]} ->
     kw = {[ "model" := VStr "gpt-3.5-turbo";
             "messages" := VList [VDict {[ "role" := VStr "user";
                                           "content" := VStr "hi" ]}];
             "max_tokens" := VInt 1000 ]}).
Proof.
  exists (chat_completion_kwargs arguments).
  split; [apply chat_completion_calls|].
  unfold chat_completion_kwargs.
  split; [|split; [|split]].
  - intros Hmodel. rewrite lookup_insert_eq. by rewrite dict_get_missing.
  - intros Hmax. rewrite !lookup_insert_ne by done.
    rewrite lookup_singleton_eq. by rewrite dict_get_missing.
  - eexists _, _. split; [reflexivity|]. by vm_compute.
  - by intros ->.
Qed.

(** C5: [handle_analyze_text] makes one completion call whose only
    message is the derived prompt: the sentiment template when
    [analysis_type] is "sentiment" (so the prompt contains "Analyze the
    sentiment of this text:"), the keyword template when it is
    "keywords", and the summary template for every other value and when
    the field is absent. *)
Theorem analyze_text_prompt_templates arguments w :
  exists prompt,
    calls (handle_analyze_text arguments w).2 =
      calls w ++ [{| method := chat_completions_create;
                     kwargs := {[ "model" := VStr "gpt-3.5-turbo";
                                  "messages" :=
                                    VList [VDict {[ "role" := VStr "user";
                                                    "content" := VStr prompt ]}];
                                  "max_tokens" := VInt 500 ]} |}] /\
    let text := str (dict_get arguments "text" (VStr "")) in
    (arguments !! "analysis_type" = Some (VStr "sentiment") ->
     prompt = "Analyze the sentiment of this text: " +:+ text /\
     contains prompt "Analyze the sentiment of this text:") /\
    (arguments !! "analysis_type" = Some (VStr "keywords") ->
     prompt = "Extract key keywords from this text: " +:+ text) /\
    (arguments !! "analysis_type" ≠ Some (VStr "sentiment") ->
     arguments !! "analysis_type" ≠ Some (VStr "keywords") ->
     prompt = "Provide a brief summary of this text: " +:+ text).
Proof.
  exists (analyze_text_prompt arguments).
  split; [apply analyze_text_calls|].
  cbv zeta. unfold analyze_text_prompt, dict_get.
  split; [|split].
  - intros ->. simpl. split; [done|].
    by exists "", (" " +:+ str match arguments !! "text" with
                               | Some v => v
                               | None => VStr ""
                               end).
  - by intros ->.
  - intros Hs Hk.
    destruct (arguments !! "analysis_type") as [v|] eqn:Hv; [|done].
    destruct v as [| | | |s| |]; try done. simpl.
    destruct (String.eqb_spec s "sentiment") as [->|_]; [done|].
    by destruct (String.eqb_spec s "keywords") as [->|_].
Qed.

End Requests.

(** * Fields the handlers do not check or do not read *)

Section Fields.
Context `{Externals}.






(** The bundle reaches [handle_analyze_text] through two keys only. *)
Lemma analyze_text_kwargs_agree arguments arguments' :
  arguments' !! "text" = arguments !! "text" ->
  arguments' !! "analysis_type" = arguments !! "analysis_type" ->
  analyze_text_kwargs arguments' = analyze_text_kwargs arguments.
Proof.
  intros Ht Ha. unfold analyze_text_kwargs, analyze_text_prompt, dict_get.
  by rewrite Ht, Ha.
Qed.

(** C9: the completion call of [handle_analyze_text] always carries the
    model "gpt-3.5-turbo" and [max_tokens] 500, whatever the bundle holds;
    setting a [model] or a [max_tokens] key in the bundle changes neither
    the call nor the result. *)
Theorem analyze_text_fixed_model arguments w :
  exists kw,
    calls (handle_analyze_text arguments w).2 =
      calls w ++ [{| method := chat_completions_create; kwargs := kw |}] /\
    kw !! "model" = Some (VStr "gpt-3.5-turbo") /\
    kw !! "max_tokens" = Some (VInt 500) /\
    forall model max_tokens,
      handle_analyze_text
        (<["model" := model]> (<["max_tokens" := max_tokens]> arguments)) w =
      handle_analyze_text arguments w.
Proof.
  exists (analyze_text_kwargs arguments).
  split; [apply analyze_text_calls|].
  unfold analyze_text_kwargs at 1 2.
  split; [by rewrite lookup_insert_eq|].
  split; [by rewrite !lookup_insert_ne, lookup_singleton_eq|].
  intros model max_tokens. rewrite !handle_analyze_text_run.
  rewrite (analyze_text_kwargs_agree arguments); [done| |];
    by rewrite !lookup_insert_ne.
Qed.

(** The bundle reaches [handle_generate_image] through three keys only. *)
Lemma generate_image_kwargs_agree arguments arguments' :
  (forall key, key ∈ ["prompt"; "size"; "quality"] ->
               arguments' !! key = arguments !! key) ->
  generate_image_kwargs arguments' = generate_image_kwargs arguments.
Proof.
  intros Hagree. unfold generate_image_kwargs, dict_get.
  rewrite !Hagree; [done|..]; rewrite !elem_of_cons; tauto.
Qed.

(** C10: [handle_generate_image] makes one image call with the model
    "dall-e-3", [n] = 1 and the [prompt], [size] and [quality] of the
    bundle (or their defaults); two bundles that agree on these three
    keys are handled alike; and a result with [isError = false] carries
    the text "Generated image: " followed by the URL of the first image
    of the reply. *)
Theorem generate_image_request arguments w :
  let kw : gmap string value :=
    {[ "model" := VStr "dall-e-3";
       "prompt" := dict_get arguments "prompt" (VStr "");
       "size" := dict_get arguments "size" (VStr "1024x1024");
       "quality" := dict_get arguments "quality" (VStr "standard");
       "n" := VInt 1 ]} in
  calls (handle_generate_image arguments w).2 =
    calls w ++ [{| method := images_generate; kwargs := kw |}] /\
  (forall arguments',
     (forall key, key ∈ ["prompt"; "size"; "quality"] ->
                  arguments' !! key = arguments !! key) ->
     handle_generate_image arguments' w = handle_generate_image arguments w) /\
  (forall result w',
     handle_generate_image arguments w = (Returned result, w') ->
     isError result = false ->
     exists response image,
       (images_create kw (backend w)).1 = Returned response /\
       openai.data response !! 0%nat = Some image /\
       content result =
         [{| type := "text";
             text := "Generated image: " +:+ str_opt (openai.url image) |}]) /\
  (forall response image rest u b',
     images_create kw (backend w) = (Returned response, b') ->
     openai.data response = image :: rest ->
     openai.url image = Some u ->
     (handle_generate_image arguments w).1 =
       Returned {| content := [{| type := "text";
                                  text := "Generated image: " +:+ u |}];
                   isError := false |}).
Proof.
  cbv zeta. fold (generate_image_kwargs arguments).
  split; [apply generate_image_calls|].
  split; [|split].
  - intros arguments' Hagree. rewrite !handle_generate_image_run.
    by rewrite (generate_image_kwargs_agree arguments).
  - intros result w'. rewrite handle_generate_image_run. cbv zeta.
    intros [= <- <-].
    destruct (images_create _ (backend w)) as [[response|e] b]; simpl; [|done].
    destruct (openai.data response) as [|image rest] eqn:Hdata; simpl; [done|].
    intros _. exists response, image. by rewrite Hdata.
  - intros response image rest u b' Hreply Hdata Hurl.
    rewrite handle_generate_image_run. cbv zeta.
    rewrite Hreply. simpl. rewrite Hdata. simpl. by rewrite Hurl.
Qed.

End Fields.

(** * The catalog *)

Section Catalog.
Context `{Externals}.

Lemma serve_list_tools n :
  forall w catalog,
    handle_list_tools w = (Returned catalog, w) ->
    serve (replicate n ListToolsRequest) w =
      (Returned (replicate n (ListToolsResponse catalog)), w).
Proof.
  induction n as [|n IH]; intros w catalog Hcat; simpl; [done|].
  unfold bind. rewrite Hcat. unfold ret at 1.
  by rewrite (IH w catalog Hcat).
Qed.

(** Whatever else the loop serves, a catalog it sends is the catalog. *)
Lemma serve_catalogs rqs :
  forall w rs w' r,
    serve rqs w = (Returned rs, w') ->
    ListToolsResponse r ∈ rs ->
    forall w0, handle_list_tools w0 = (Returned r, w0).
Proof.
  induction rqs as [|rq rest IH]; intros w rs w' r; simpl.
  - intros [= <- <-] Hin. by apply elem_of_nil in Hin.
  - unfold bind at 1.
    destruct (dispatch rq w) as [[r1|e] w1] eqn:Hrq; [|done].
    unfold bind at 1.
    destruct (serve rest w1) as [[rs1|e] w2] eqn:Hrest; [|done].
    intros [= <- <-] Hin. apply elem_of_cons in Hin as [<-|Hin].
    + destruct rq as [|name arguments]; unfold dispatch, bind in Hrq.
      * unfold handle_list_tools, ret in Hrq. by injection Hrq as <- <-.
      * destruct (handle_call_tool name arguments w) as [[x|e] w3]; [|done].
        unfold ret in Hrq. by injection Hrq.
    + by apply (IH w1 rs1 w2).
Qed.

(** C7: [handle_list_tools] returns the same catalog in every world and
    leaves the world as it found it; any number of calls in a row return
    that catalog each time; every catalog the loop sends, between
    whatever other requests, is that catalog; and its tool names, field
    sets, required fields and declared defaults are the fixed ones
    below. *)
Theorem list_tools_idempotent :
  exists catalog,
    (forall w, handle_list_tools w = (Returned catalog, w)) /\
    (forall n w,
       serve (replicate n ListToolsRequest) w =
         (Returned (replicate n (ListToolsResponse catalog)), w)) /\
    (forall rqs w rs w' r,
       serve rqs w = (Returned rs, w') ->
       ListToolsResponse r ∈ rs ->
       tool_names r = tool_names catalog /\
       field_set <$> tools r = field_set <$> tools catalog /\
       required_fields <$> tools r = required_fields <$> tools catalog /\
       declared_defaults <$> tools r = declared_defaults <$> tools catalog) /\
    tool_names catalog = ["chat_completion"; "generate_image"; "analyze_text"] /\
    field_set <$> tools catalog =
      [ {[ "message"; "model"; "max_tokens" ]};
        {[ "prompt"; "size"; "quality" ]};
        {[ "text"; "analysis_type" ]} ] /\
    required_fields <$> tools catalog =
      [ [VStr "message"]; [VStr "prompt"]; [VStr "text"] ] /\
    declared_defaults <$> tools catalog =
      [ {[ "model" := VStr "gpt-3.5-turbo"; "max_tokens" := VInt 1000 ]};
        {[ "size" := VStr "1024x1024"; "quality" := VStr "standard" ]};
        {[ "analysis_type" := VStr "summary" ]} ].
Proof.
  eexists. split; [intros w; reflexivity|].
  split; [intros n w; by apply serve_list_tools|].
  split.
  - intros rqs w rs w' r Hserve Hin.
    pose proof (serve_catalogs rqs w rs w' r Hserve Hin w) as Hr.
    unfold handle_list_tools, ret in Hr. by injection Hr as <-.
  - repeat split; by vm_compute.
Qed.

End Catalog.

(** * Start-up *)

Section Exit.
Context `{Platform}.

Lemma main_without_key environ :
  py_not (getenv environ "OPENAI_API_KEY") = true ->
  main environ =
    ([print "Error: OPENAI_API_KEY environment variable is not set";
      print "Please set your OpenAI API key in the .env file or environment"],
     SystemExit 1).
Proof. unfold main. by intros ->. Qed.

Lemma main_with_key environ :
  py_not (getenv environ "OPENAI_API_KEY") = false ->
  exists options,
    (main environ).1 =
      [print "Starting OpenAI MCP Server...";
       print "Available tools:";
       print "- chat_completion: Send messages to OpenAI's chat completion API";
       print "- generate_image: Generate images using DALL-E";
       print "- analyze_text: Analyze text for sentiment, summary, or keywords";
       session options] /\
    (main environ).2 =
      match stdio_run options with
      | Returned _ => Finished
      | Raised e => Uncaught e
      end.
Proof. unfold main. intros ->. by eexists. Qed.

(** Start-up without a usable key, whatever the constructor does: when
    [OPENAI_API_KEY] is absent (or empty) the process ends with exit code
    1 and no session is ever opened; it writes the two lines of [main]
    when the client constructor accepted the missing key, and otherwise
    the traceback of the constructor's exception.  An exit code of 0 means
    that the key was set, that the session was opened after the banner and
    that it ended cleanly. *)
Theorem missing_key_exits_before_protocol environ :
  (py_not (getenv environ "OPENAI_API_KEY") = true ->
   exit_code (script environ).2 = 1 /\
   (forall options, session options ∉ (script environ).1) /\
   match OpenAI (getenv environ "OPENAI_API_KEY") with
   | Returned _ =>
       script environ =
         ([print "Error: OPENAI_API_KEY environment variable is not set";
           print "Please set your OpenAI API key in the .env file or environment"],
          SystemExit 1)
   | Raised e => script environ = ([traceback e], Uncaught e)
   end)
  /\
  (exit_code (script environ).2 = 0 ->
   py_not (getenv environ "OPENAI_API_KEY") = false /\
   (script environ).2 = Finished /\
   exists options before,
     (script environ).1 = before ++ [session options] /\
     (forall o, session o ∉ before) /\
     stdio_run options = Returned tt).
Proof.
  unfold script, module_body. split.
  - intros Hkey.
    destruct (OpenAI (getenv environ "OPENAI_API_KEY")) as [[]|e].
    + rewrite main_without_key by done. simpl.
      split; [done|]. split; [|done].
      intros options. rewrite !not_elem_of_cons. repeat split; try done.
      apply not_elem_of_nil.
    + simpl. split; [done|]. split; [|done].
      intros options. rewrite not_elem_of_cons. split; [done|].
      apply not_elem_of_nil.
  - destruct (OpenAI (getenv environ "OPENAI_API_KEY")) as [[]|e]; [|done].
    destruct (py_not (getenv environ "OPENAI_API_KEY")) eqn:Hkey.
    + by rewrite main_without_key.
    + destruct (main_with_key environ Hkey) as (options & Hevents & Hexit).
      rewrite Hexit.
      destruct (stdio_run options) as [[]|e] eqn:Hrun; [|done].
      intros _. split; [done|]. split; [done|].
      exists options,
        [print "Starting OpenAI MCP Server...";
         print "Available tools:";
         print "- chat_completion: Send messages to OpenAI's chat completion API";
         print "- generate_image: Generate images using DALL-E";
         print "- analyze_text: Analyze text for sentiment, summary, or keywords"].
      split; [by rewrite Hevents|]. split; [|done].
      intros o. rewrite !not_elem_of_cons. repeat split; try done.
      apply not_elem_of_nil.
Qed.


End Exit.

(** * Examples on the scripted backend *)

(** [chat_completion] with only [{"message": "hi"}]: the stub captures the
    model and the token limit of the defaults. *)
Lemma chat_completion_defaults_example :
  calls (handle_chat_completion (H := scripted) {[ "message" := VStr "hi" ]}
           (start [chat_reply (Returned (completion "hello"))])).2 =
    [{| method := chat_completions_create;
        kwargs := {[ "model" := VStr "gpt-3.5-turbo";
                     "messages" := VList [VDict {[ "role" := VStr "user";
                                                   "content" := VStr "hi" ]}];
                     "max_tokens" := VInt 1000 ]} |}].
Proof.
  destruct (chat_completion_defaults (H := scripted) {[ "message" := VStr "hi" ]}
              (start [chat_reply (Returned (completion "hello"))]))
    as (kw & Hcalls & _ & _ & _ & Hkw).
  rewrite Hcalls. rewrite (Hkw eq_refl). reflexivity.
Defined.

(** [analyze_text] with [analysis_type="sentiment"]. *)
Lemma analyze_text_sentiment_example :
  let arguments : gmap string value :=
    {[ "text" := VStr "I love it"; "analysis_type" := VStr "sentiment" ]} in
  arguments !! "analysis_type" = Some (VStr "sentiment") /\
  exists prompt,
    calls (handle_analyze_text (H := scripted) arguments (start [])).2 =
      [{| method := chat_completions_create;
          kwargs := {[ "model" := VStr "gpt-3.5-turbo";
                       "messages" := VList [VDict {[ "role" := VStr "user";
                                                     "content" := VStr prompt ]}];
                       "max_tokens" := VInt 500 ]} |}] /\
    prompt = "Analyze the sentiment of this text: I love it" /\
    contains prompt "Analyze the sentiment of this text:".
Proof.
  intros arguments.
  assert (Hkey : arguments !! "analysis_type" = Some (VStr "sentiment"))
    by reflexivity.
  split; [exact Hkey|].
  destruct (analyze_text_prompt_templates (H := scripted) arguments (start []))
    as (prompt & Hcalls & Hsentiment & _ & _).
  exists prompt. split; [exact Hcalls|]. exact (Hsentiment Hkey).
Defined.

(** [analysis_type="bogus"] falls back to the summary template. *)
Example analyze_text_bogus_example :
  calls (handle_analyze_text (H := scripted)
           {[ "text" := VStr "I love it"; "analysis_type" := VStr "bogus" ]}
           (start [])).2 =
    [{| method := chat_completions_create;
        kwargs := {[ "model" := VStr "gpt-3.5-turbo";
                     "messages" :=
                       VList [VDict {[ "role" := VStr "user";
                                       "content" :=
                                         VStr "Provide a brief summary of this text: I love it" ]}];
                     "max_tokens" := VInt 500 ]} |}].
Proof. reflexivity. Qed.


(** A generated image: the text is the reference to the image. *)
Lemma generate_image_example :
  let reply :=
    {| openai.data := [{| openai.url := Some "https://example.com/cat.png" |}] |} in
  (handle_generate_image (H := scripted) {[ "prompt" := VStr "a cat" ]}
     (start [image_reply (Returned reply)])).1 =
    Returned {| content := [{| type := "text";
                               text := "Generated image: https://example.com/cat.png" |}];
                isError := false |}.
Proof.
  intros reply.
  destruct (generate_image_request (H := scripted) {[ "prompt" := VStr "a cat" ]}
              (start [image_reply (Returned reply)]))
    as (_ & _ & _ & Hsuccess).
  exact (Hsuccess reply {| openai.url := Some "https://example.com/cat.png" |} []
           "https://example.com/cat.png" [] eq_refl eq_refl eq_refl).
Defined.

(** A reply without a URL is rendered the way an f-string renders [None]. *)
Example generate_image_without_url :
  (handle_generate_image (H := scripted) ∅
     (start [image_reply (Returned {| openai.data := [{| openai.url := None |}] |})])).1 =
    Returned {| content := [{| type := "text"; text := "Generated image: None" |}];
                isError := false |}.
Proof. reflexivity. Qed.

(** A reply without choices, and a reply whose content is [None], are
    caught by the handler like any other failure. *)
Example empty_choices_example :
  (handle_call_tool (H := scripted) "analyze_text" ∅
     (start [chat_reply (Returned {| openai.choices := [] |})])).1 =
    Returned {| content := [{| type := "text";
                               text := "Error analyzing text: list index out of range" |}];
                isError := true |}.
Proof. reflexivity. Qed.

Example none_content_example :
  (handle_call_tool (H := scripted) "chat_completion" ∅
     (start [chat_reply (Returned
        {| openai.choices :=
             [{| openai.message := {| openai.content := None |} |}] |})])).1 =
    Returned {| content := [{| type := "text";
                               text := "Error in chat completion: 1 validation error for TextContent" |}];
                isError := true |}.
Proof. reflexivity. Qed.

(** ** Start-up *)

(** An empty key passes the constructor and is stopped by [main]. *)
Lemma empty_key_example :
  let environ : gmap string string := {[ "OPENAI_API_KEY" := "" ]} in
  py_not (getenv environ "OPENAI_API_KEY") = true /\
  script (H := strict_platform) environ =
    ([print "Error: OPENAI_API_KEY environment variable is not set";
      print "Please set your OpenAI API key in the .env file or environment"],
     SystemExit 1) /\
  exit_code (script (H := strict_platform) environ).2 = 1.
Proof.
  intros environ.
  assert (Hkey : py_not (getenv environ "OPENAI_API_KEY") = true) by reflexivity.
  split; [exact Hkey|].
  destruct (missing_key_exits_before_protocol (H := strict_platform) environ)
    as (Hmissing & _).
  destruct (Hmissing Hkey) as (Hcode & _ & Hscript).
  split; [exact Hscript|exact Hcode].
Defined.


(** No key at all: the constructor raises while the module is loaded. *)
Example absent_key_example :
  script (H := strict_platform) ∅ = ([traceback OpenAIError], Uncaught OpenAIError) /\
  exit_code (script (H := strict_platform) ∅).2 = 1.
Proof. split; reflexivity. Qed.

(** A key, and a session that ends cleanly. *)
Example clean_shutdown_example :
  exit_code (script (H := strict_platform) {[ "OPENAI_API_KEY" := "sk-test" ]}).2 = 0.
Proof. reflexivity. Qed.

(** * Further properties of the server *)

Section Traffic_facts.
Context `{Externals}.

Lemma handle_call_tool_calls name arguments w :
  calls (handle_call_tool name arguments w).2 =
    calls w ++ option_list (request_of name arguments).
Proof.
  destruct (request_of name arguments) as [c|] eqn:Hc; simpl.
  - by destruct (handle_call_tool_run name arguments w c Hc) as (d & _ & ->).
  - rewrite handle_call_tool_unknown; [by rewrite app_nil_r|].
    rewrite request_of_registered, Hc. by intros [? ?].
Qed.

(** X1: when [handle_call_tool] is called directly any number of times in
    a row, every call returns a result, and the calls that reach the
    backend are exactly those of the calls naming a registered tool, one
    each and in their order: nothing for an unknown tool, and no second
    attempt after a failure or after a reply the handler cannot use. *)
Theorem call_tool_backend_traffic invocations :
  forall w, exists results w',
    call_each invocations w = (Returned results, w') /\
    length results = length invocations /\
    calls w' = calls w ++ omap backend_call invocations.
Proof.
  induction invocations as [|[name arguments] rest IH]; intros w; simpl.
  - exists [], w. by rewrite app_nil_r.
  - unfold bind at 1.
    pose proof (handle_call_tool_calls name arguments w) as Hcalls.
    destruct (handle_call_tool_returns name arguments w) as (result & w1 & Hrun).
    rewrite Hrun in Hcalls |- *. simpl in Hcalls.
    unfold bind at 1.
    destruct (IH w1) as (results & w2 & -> & Hlen & Hrest).
    exists (result :: results), w2. split; [done|].
    split; [simpl; by rewrite Hlen|].
    rewrite Hrest, Hcalls, <- app_assoc. f_equal.
    unfold backend_call. simpl. by destruct (request_of name arguments).
Qed.

End Traffic_facts.

Section Replies.
Context `{Externals}.

Lemma dict_get_present (d : gmap string value) key dflt v :
  d !! key = Some v -> dict_get d key dflt = v.
Proof. unfold dict_get. by intros ->. Qed.

(** X2: a key that the bundle holds is passed to the backend with the value
    it has, whatever that value is: the defaults of [handle_chat_completion]
    and [handle_generate_image] replace an absent key only, not a null or
    an ill-typed one. *)
Theorem present_values_are_passed_on arguments w key v :
  arguments !! key = Some v ->
  exists kw_chat kw_image,
    calls (handle_chat_completion arguments w).2 =
      calls w ++ [{| method := chat_completions_create; kwargs := kw_chat |}] /\
    calls (handle_generate_image arguments w).2 =
      calls w ++ [{| method := images_generate; kwargs := kw_image |}] /\
    (key ∈ ["model"; "max_tokens"] -> kw_chat !! key = Some v) /\
    (key = "message" ->
     kw_chat !! "messages" =
       Some (VList [VDict {[ "role" := VStr "user"; "content" := v ]}])) /\
    (key ∈ ["prompt"; "size"; "quality"] -> kw_image !! key = Some v).
Proof.
  intros Hkey.
  exists (chat_completion_kwargs arguments), (generate_image_kwargs arguments).
  split; [apply chat_completion_calls|]. split; [apply generate_image_calls|].
  unfold chat_completion_kwargs, generate_image_kwargs.
  split; [|split].
  - rewrite !elem_of_cons, elem_of_nil. intros [->|[->|[]]].
    + rewrite lookup_insert_eq. by rewrite (dict_get_present _ _ _ v).
    + rewrite !lookup_insert_ne by done. rewrite lookup_singleton_eq.
      by rewrite (dict_get_present _ _ _ v).
  - intros ->. rewrite lookup_insert_ne by done. rewrite lookup_insert_eq.
    by rewrite (dict_get_present _ _ _ v).
  - rewrite !elem_of_cons, elem_of_nil. intros [->|[->|[->|[]]]].
    + rewrite lookup_insert_ne by done. rewrite lookup_insert_eq.
      by rewrite (dict_get_present _ _ _ v).
    + rewrite !lookup_insert_ne by done. rewrite lookup_insert_eq.
      by rewrite (dict_get_present _ _ _ v).
    + rewrite !lookup_insert_ne by done. rewrite lookup_insert_eq.
      by rewrite (dict_get_present _ _ _ v).
Qed.

(** X3: a reply that holds no choice (for the two completion handlers) or
    no image (for [handle_generate_image]) is not an error of the backend,
    yet the handler reports it: indexing the empty list fails inside the
    [try], and the result is [isError = true] with the handler's diagnostic
    followed by "list index out of range". *)
Theorem empty_reply_is_reported arguments w :
  (forall response b',
     chat_create (chat_completion_kwargs arguments) (backend w) = (Returned response, b') ->
     openai.choices response = [] ->
     (handle_chat_completion arguments w).1 =
       Returned {| content := [{| type := "text";
                                  text := "Error in chat completion: list index out of range" |}];
                   isError := true |}) /\
  (forall response b',
     images_create (generate_image_kwargs arguments) (backend w) = (Returned response, b') ->
     openai.data response = [] ->
     (handle_generate_image arguments w).1 =
       Returned {| content := [{| type := "text";
                                  text := "Error generating image: list index out of range" |}];
                   isError := true |}) /\
  (forall response b',
     chat_create (analyze_text_kwargs arguments) (backend w) = (Returned response, b') ->
     openai.choices response = [] ->
     (handle_analyze_text arguments w).1 =
       Returned {| content := [{| type := "text";
                                  text := "Error analyzing text: list index out of range" |}];
                   isError := true |}).
Proof.
  split; [|split]; intros response b' Hreply Hempty.
  - rewrite handle_chat_completion_run. cbv zeta. rewrite Hreply. simpl.
    by rewrite Hempty.
  - rewrite handle_generate_image_run. cbv zeta. rewrite Hreply. simpl.
    by rewrite Hempty.
  - rewrite handle_analyze_text_run. cbv zeta. rewrite Hreply. simpl.
    by rewrite Hempty.
Qed.

(** X4: a completion whose first choice has no content ([content] is
    [None]) cannot be put in a text block: building the block fails inside
    the [try], and the result is [isError = true] with the handler's
    diagnostic followed by the message of the validation error. *)
Theorem missing_content_is_reported arguments w :
  (forall response choice rest b',
     chat_create (chat_completion_kwargs arguments) (backend w) = (Returned response, b') ->
     openai.choices response = choice :: rest ->
     openai.content (openai.message choice) = None ->
     (handle_chat_completion arguments w).1 =
       Returned {| content := [{| type := "text";
                                  text := "Error in chat completion: " +:+
                                          exc_str ValidationError |}];
                   isError := true |}) /\
  (forall response choice rest b',
     chat_create (analyze_text_kwargs arguments) (backend w) = (Returned response, b') ->
     openai.choices response = choice :: rest ->
     openai.content (openai.message choice) = None ->
     (handle_analyze_text arguments w).1 =
       Returned {| content := [{| type := "text";
                                  text := "Error analyzing text: " +:+
                                          exc_str ValidationError |}];
                   isError := true |}).
Proof.
  split; intros response choice rest b' Hreply Hchoices Hcontent.
  - rewrite handle_chat_completion_run. cbv zeta. rewrite Hreply. simpl.
    rewrite Hchoices. simpl. by rewrite Hcontent.
  - rewrite handle_analyze_text_run. cbv zeta. rewrite Hreply. simpl.
    rewrite Hchoices. simpl. by rewrite Hcontent.
Qed.

(** X5: an image reply whose first image has no URL is, unlike a completion
    without content, not reported as an error: the result has
    [isError = false] and the text "Generated image: None". *)
Theorem missing_url_is_not_reported arguments w response image rest b' :
  images_create (generate_image_kwargs arguments) (backend w) = (Returned response, b') ->
  openai.data response = image :: rest ->
  openai.url image = None ->
  (handle_generate_image arguments w).1 =
    Returned {| content := [{| type := "text"; text := "Generated image: None" |}];
                isError := false |}.
Proof.
  intros Hreply Hdata Hurl.
  rewrite handle_generate_image_run. cbv zeta. rewrite Hreply. simpl.
  rewrite Hdata. simpl. by rewrite Hurl.
Qed.

Lemma chat_text_returned r s :
  chat_text r = Returned s <->
  exists response choice,
    r = Returned response /\
    openai.choices response !! 0%nat = Some choice /\
    openai.content (openai.message choice) = Some s.
Proof.
  unfold chat_text. split.
  - destruct r as [response|e]; [|done].
    destruct (openai.choices response !! 0%nat) as [choice|] eqn:Hchoice; [|done].
    destruct (openai.content (openai.message choice)) as [s'|] eqn:Hcontent; [|done].
    intros [= ->]. by exists response, choice.
  - intros (response & choice & -> & -> & ->). done.
Qed.

Lemma wrap_success diagnostic r s :
  wrap diagnostic r = text_result s false <-> r = Returned s.
Proof.
  split; [|by intros ->].
  destruct r as [s'|e]; simpl; unfold text_result; [by intros [= ->]|done].
Qed.

(** X6: the two completion handlers succeed exactly when the reply has a
    first choice with a content, and then the text of the result is that
    content, unchanged; the other choices of the reply play no part. *)
Theorem completion_success arguments w s :
  ((handle_chat_completion arguments w).1 =
     Returned {| content := [{| type := "text"; text := s |}]; isError := false |}
   <->
   exists response choice,
     (chat_create (chat_completion_kwargs arguments) (backend w)).1 = Returned response /\
     openai.choices response !! 0%nat = Some choice /\
     openai.content (openai.message choice) = Some s)
  /\
  ((handle_analyze_text arguments w).1 =
     Returned {| content := [{| type := "text"; text := s |}]; isError := false |}
   <->
   exists response choice,
     (chat_create (analyze_text_kwargs arguments) (backend w)).1 = Returned response /\
     openai.choices response !! 0%nat = Some choice /\
     openai.content (openai.message choice) = Some s).
Proof.
  split.
  - rewrite handle_chat_completion_run. cbv zeta. simpl.
    rewrite <- chat_text_returned, <- (wrap_success "Error in chat completion: ").
    unfold text_result. split; [by intros [= ->]|by intros ->].
  - rewrite handle_analyze_text_run. cbv zeta. simpl.
    rewrite <- chat_text_returned, <- (wrap_success "Error analyzing text: ").
    unfold text_result. split; [by intros [= ->]|by intros ->].
Qed.

Lemma chat_completion_kwargs_agree arguments arguments' :
  (forall key, key ∈ ["message"; "model"; "max_tokens"] ->
               arguments' !! key = arguments !! key) ->
  chat_completion_kwargs arguments' = chat_completion_kwargs arguments.
Proof.
  intros Hagree. unfold chat_completion_kwargs, dict_get.
  rewrite !Hagree; [done|..]; rewrite !elem_of_cons; tauto.
Qed.

(** X7: [handle_chat_completion] reads the keys [message], [model] and
    [max_tokens] and nothing else, [handle_analyze_text] the keys [text]
    and [analysis_type] and nothing else: two bundles that agree on them
    get the same call, the same result and the same world. *)
Theorem handlers_read_their_keys_only arguments arguments' w :
  ((forall key, key ∈ ["message"; "model"; "max_tokens"] ->
                arguments' !! key = arguments !! key) ->
   handle_chat_completion arguments' w = handle_chat_completion arguments w) /\
  ((forall key, key ∈ ["text"; "analysis_type"] ->
                arguments' !! key = arguments !! key) ->
   handle_analyze_text arguments' w = handle_analyze_text arguments w).
Proof.
  split; intros Hagree.
  - rewrite !handle_chat_completion_run.
    by rewrite (chat_completion_kwargs_agree arguments).
  - rewrite !handle_analyze_text_run.
    rewrite (analyze_text_kwargs_agree arguments); [done|..];
      apply Hagree; rewrite !elem_of_cons; tauto.
Qed.

End Replies.

Section Catalog_and_handlers.
Context `{Externals}.

Lemma analyze_text_kwargs_default arguments :
  arguments !! "analysis_type" = None ->
  analyze_text_kwargs (<["analysis_type" := VStr "summary"]> arguments) =
    analyze_text_kwargs arguments.
Proof.
  intros Hnone. unfold analyze_text_kwargs, analyze_text_prompt.
  by rewrite dict_get_insert_default, !dict_get_insert_ne.
Qed.

Lemma chat_completion_kwargs_default arguments field d :
  (field = "model" /\ d = VStr "gpt-3.5-turbo") \/
  (field = "max_tokens" /\ d = VInt 1000) ->
  arguments !! field = None ->
  chat_completion_kwargs (<[field := d]> arguments) = chat_completion_kwargs arguments.
Proof.
  intros [[-> ->]|[-> ->]] Hnone; unfold chat_completion_kwargs;
    by rewrite dict_get_insert_default, !dict_get_insert_ne.
Qed.

Lemma generate_image_kwargs_default arguments field d :
  (field = "size" /\ d = VStr "1024x1024") \/
  (field = "quality" /\ d = VStr "standard") ->
  arguments !! field = None ->
  generate_image_kwargs (<[field := d]> arguments) = generate_image_kwargs arguments.
Proof.
  intros [[-> ->]|[-> ->]] Hnone; unfold generate_image_kwargs;
    by rewrite dict_get_insert_default, !dict_get_insert_ne.
Qed.

(** X8: the catalog and the handlers agree on every default.  Whenever the
    catalog declares a default for a field of a tool, a bundle without that
    field is handled exactly as the same bundle with the field set to the
    declared default. *)
Theorem declared_defaults_are_applied name field d arguments w catalog tool :
  handle_list_tools w = (Returned catalog, w) ->
  find_tool catalog name = Some tool ->
  declared_default tool field = Some d ->
  arguments !! field = None ->
  handle_call_tool name (<[field := d]> arguments) w = handle_call_tool name arguments w.
Proof.
  unfold handle_list_tools, ret. intros [= <-].
  unfold find_tool, declared_default. intros Hfind.
  apply List.find_some in Hfind as [Hin Hname].
  apply String.eqb_eq in Hname as <-.
  simpl in Hin. destruct Hin as [<-|[<-|[<-|[]]]]; unfold handle_call_tool; simpl.
  - assert (forall t, declared_defaults
              {| name := "chat_completion"; description := t;
                 inputSchema := _ |} =
            {[ "model" := VStr "gpt-3.5-turbo"; "max_tokens" := VInt 1000 ]}) as ->
      by (intros; by vm_compute).
    rewrite lookup_insert_Some, lookup_singleton_Some. intros Hd Hnone.
    rewrite !handle_chat_completion_run.
    rewrite (chat_completion_kwargs_default arguments field d); [done| |done].
    destruct Hd as [[<- <-]|[_ [<- <-]]]; [by left|by right].
  - assert (forall t, declared_defaults
              {| name := "generate_image"; description := t;
                 inputSchema := _ |} =
            {[ "size" := VStr "1024x1024"; "quality" := VStr "standard" ]}) as ->
      by (intros; by vm_compute).
    rewrite lookup_insert_Some, lookup_singleton_Some. intros Hd Hnone.
    rewrite !handle_generate_image_run.
    rewrite (generate_image_kwargs_default arguments field d); [done| |done].
    destruct Hd as [[<- <-]|[_ [<- <-]]]; [by left|by right].
  - assert (forall t, declared_defaults
              {| name := "analyze_text"; description := t;
                 inputSchema := _ |} =
            {[ "analysis_type" := VStr "summary" ]}) as ->
      by (intros; by vm_compute).
    rewrite lookup_singleton_Some. intros [<- <-] Hnone.
    rewrite !handle_analyze_text_run.
    by rewrite analyze_text_kwargs_default.
Qed.

(** X9: the catalog and the dispatcher agree on the tools.  A name is
    advertised by [handle_list_tools] exactly when [handle_call_tool] sends
    a call to the backend for it. *)
Theorem advertised_iff_routed name arguments w catalog :
  handle_list_tools w = (Returned catalog, w) ->
  name ∈ tool_names catalog <->
  exists c, calls (handle_call_tool name arguments w).2 = calls w ++ [c].
Proof.
  unfold handle_list_tools, ret. intros [= <-].
  change (tool_names _) with registered.
  rewrite handle_call_tool_calls, (request_of_registered name arguments).
  destruct (request_of name arguments) as [c|]; simpl.
  - split; [by exists c|by eexists].
  - split; [by intros [? ?]|].
    intros [c Hc]. apply (f_equal length) in Hc.
    rewrite app_nil_r, length_app in Hc. simpl in Hc. lia.
Qed.

End Catalog_and_handlers.

(** * Further properties of the start-up code *)

Section Exit_facts.
Context `{Platform}.

(** X10: the process opens a session exactly when the key is set and the
    client constructor returned; it then opens exactly one, for the server
    "openai-tools" in version "1.0.0", with every change notification
    switched off and no experimental capability. *)
Theorem one_session_with_fixed_options environ :
  sessions (script environ).1 =
    match OpenAI (getenv environ "OPENAI_API_KEY") with
    | Raised _ => []
    | Returned _ =>
        if py_not (getenv environ "OPENAI_API_KEY") then []
        else [{| server_name := "openai-tools";
                 server_version := "1.0.0";
                 notification_options :=
                   {| tools_changed := false;
                      resources_changed := false;
                      prompts_changed := false;
                      roots_changed := false |};
                 experimental_capabilities := ∅ |}]
    end.
Proof.
  unfold script, module_body.
  destruct (OpenAI (getenv environ "OPENAI_API_KEY")) as [[]|e]; [|done].
  unfold main.
  destruct (py_not (getenv environ "OPENAI_API_KEY")); [done|].
  simpl. by destruct (stdio_run _) as [[]|e].
Qed.

(** X11: the exit code is 0 or 1, and it is 0 exactly when the client
    constructor returned, the key is set and the session ended without an
    exception; a session that fails gives exit code 1, with the traceback
    of its exception as the last thing the process writes. *)
Theorem exit_code_characterised environ :
  (exit_code (script environ).2 = 0 \/ exit_code (script environ).2 = 1) /\
  (exit_code (script environ).2 = 0 <->
   exists options,
     OpenAI (getenv environ "OPENAI_API_KEY") = Returned tt /\
     py_not (getenv environ "OPENAI_API_KEY") = false /\
     sessions (script environ).1 = [options] /\
     stdio_run options = Returned tt) /\
  (forall options e,
     sessions (script environ).1 = [options] ->
     stdio_run options = Raised e ->
     exit_code (script environ).2 = 1 /\
     last (script environ).1 = Some (traceback e)).
Proof.
  unfold script, module_body in *.
  destruct (OpenAI (getenv environ "OPENAI_API_KEY")) as [[]|e0].
  - unfold main in *.
    destruct (py_not (getenv environ "OPENAI_API_KEY")); simpl in *.
    + split; [by right|]. split; [|done].
      split; [done|]. by intros (? & _ & ? & _).
    + destruct (stdio_run _) as [[]|e1] eqn:Hrun; simpl in *.
      * split; [by left|]. split.
        -- split; [|done]. intros _. eexists. by rewrite Hrun.
        -- intros options e [= <-]. by rewrite Hrun.
      * split; [by right|]. split.
        -- split; [done|]. intros (options & _ & _ & [= <-] & Hok).
           by rewrite Hrun in Hok.
        -- intros options e [= <-]. rewrite Hrun. by intros [= ->].
  - simpl in *. split; [by right|]. split; [|done].
    split; [done|]. by intros (? & ? & _).
Qed.

End Exit_facts.

(** * The market data client *)

Section Market.
Context `{market_data.Requests}.

Lemma fetch_sent rq w :
  market_data.sent (market_data.fetch rq w).2 = market_data.sent w ++ [rq] /\
  market_data.stdout (market_data.fetch rq w).2 = market_data.stdout w.
Proof.
  unfold market_data.fetch, market_data.bind, market_data.get, market_data.lift.
  destruct rq as [url params]. simpl.
  destruct (market_data.requests_get url params (market_data.net w)) as [[response|e] n];
    simpl; [|done].
  by destruct (market_data.raise_for_status response) as [[]|e].
Qed.

(** A JSON method is [fetch] inside the [try]. *)
Lemma json_method_run rq line w :
  market_data.try_except_RequestException
    (market_data.bind (market_data.get rq.1 rq.2) (fun response =>
       market_data.bind (market_data.lift (market_data.raise_for_status response))
         (fun _ => market_data.lift (market_data.json response))))
    (fun e => market_data.bind (market_data.print_line (line e))
                (fun _ => market_data.ret VNone)) w =
  match market_data.fetch rq w with
  | (Returned data, w') => (Returned data, w')
  | (Raised e, w') =>
      if market_data.RequestException e
      then (Returned VNone, market_data.printed w' (line e))
      else (Raised e, w')
  end.
Proof.
  unfold market_data.try_except_RequestException. fold (market_data.fetch rq w).
  destruct (market_data.fetch rq w) as [[data|e] w']; [done|].
  by destruct (market_data.RequestException e).
Qed.

Lemma get_real_time_quote_run self symbol w :
  market_data.get_real_time_quote self symbol w =
  match market_data.fetch (market_data.quote_request self symbol) w with
  | (Returned data, w') => (Returned data, w')
  | (Raised e, w') =>
      if market_data.RequestException e
      then (Returned VNone,
            market_data.printed w'
              ("Error fetching quote for " +:+ symbol +:+ ": " +:+ exc_str e))
      else (Raised e, w')
  end.
Proof.
  apply (json_method_run (market_data.quote_request self symbol)
           (fun e => "Error fetching quote for " +:+ symbol +:+ ": " +:+ exc_str e)).
Qed.

Lemma get_market_status_run self w :
  market_data.get_market_status self w =
  match market_data.fetch (market_data.status_request self) w with
  | (Returned data, w') => (Returned data, w')
  | (Raised e, w') =>
      if market_data.RequestException e
      then (Returned VNone,
            market_data.printed w' ("Error fetching market status: " +:+ exc_str e))
      else (Raised e, w')
  end.
Proof.
  apply (json_method_run (market_data.status_request self)
           (fun e => "Error fetching market status: " +:+ exc_str e)).
Qed.

Lemma get_ticker_details_run self symbol w :
  market_data.get_ticker_details self symbol w =
  match market_data.fetch (market_data.details_request self symbol) w with
  | (Returned data, w') => (Returned data, w')
  | (Raised e, w') =>
      if market_data.RequestException e
      then (Returned VNone,
            market_data.printed w'
              ("Error fetching ticker details for " +:+ symbol +:+ ": " +:+ exc_str e))
      else (Raised e, w')
  end.
Proof.
  apply (json_method_run (market_data.details_request self symbol)
           (fun e => "Error fetching ticker details for " +:+ symbol +:+ ": " +:+ exc_str e)).
Qed.

Lemma get_historical_data_run self symbol start_date end_date timespan w :
  market_data.get_historical_data self symbol start_date end_date timespan w =
  match
    match market_data.fetch
            (market_data.history_request self symbol start_date end_date timespan) w with
    | (Returned data, w') => market_data.frame_of symbol data w'
    | (Raised e, w') => (Raised e, w')
    end
  with
  | (Returned r, w') => (Returned r, w')
  | (Raised e, w') =>
      if market_data.RequestException e
      then (Returned None,
            market_data.printed w'
              ("Error fetching historical data for " +:+ symbol +:+ ": " +:+ exc_str e))
      else (Raised e, w')
  end.
Proof.
  unfold market_data.get_historical_data, market_data.try_except_RequestException,
    market_data.fetch, market_data.history_request, market_data.frame_of, market_data.bind,
    market_data.lift, market_data.get, market_data.value_get,
    market_data.value_getitem, market_data.ret, market_data.raise,
    market_data.print_line, market_data.printed, dict_get.
  cbv zeta. simpl.
  destruct (market_data.requests_get _ _ (market_data.net w)) as [[response|e] n];
    simpl; [|done].
  destruct (market_data.raise_for_status response) as [[]|e]; simpl; [|done].
  destruct (market_data.json response) as [data|e]; simpl; [|done].
  destruct data as [| | | | | |d]; simpl; try done.
  destruct (d !! "results") as [rows|]; simpl; [|done].
  destruct (market_data.truthy rows); simpl; [|done].
  by destruct (market_data.build_frame rows) as [df|e].
Qed.

Lemma frame_of_sent symbol data w :
  market_data.sent (market_data.frame_of symbol data w).2 = market_data.sent w.
Proof.
  unfold market_data.frame_of. destruct data as [| | | | | |d]; try done.
  destruct (market_data.truthy _); [|done].
  by destruct (market_data.build_frame _).
Qed.

(** X12: every method sends exactly one GET request, whether it succeeds
    or fails, to a URL under "https://api.polygon.io" that holds its
    arguments as given, and with the key that is built into the class as
    [apiKey]: the key passed to the constructor is not used.  A history
    request without a time span asks for days. *)
Theorem one_request_with_builtin_key key symbol start_date end_date timespan w :
  let self := market_data.new key in
  let apiKey := VStr "QztWYDSNjj7NDdc4NsVOofjC6_RA8Ywg" in
  market_data.sent (market_data.get_real_time_quote self symbol w).2 =
    market_data.sent w ++
    [("https://api.polygon.io/v2/snapshot/locale/us/markets/stocks/tickers/" +:+
      symbol +:+ "/quote",
      {[ "apiKey" := apiKey ]})] /\
  market_data.sent
    (market_data.get_historical_data self symbol start_date end_date timespan w).2 =
    market_data.sent w ++
    [("https://api.polygon.io/v2/aggs/ticker/" +:+ symbol +:+ "/range/1/" +:+
      default "day" timespan +:+ "/" +:+ start_date +:+ "/" +:+ end_date,
      {[ "apiKey" := apiKey; "adjusted" := VStr "true"; "sort" := VStr "asc" ]})] /\
  market_data.sent (market_data.get_market_status self w).2 =
    market_data.sent w ++
    [("https://api.polygon.io/v1/marketstatus/now", {[ "apiKey" := apiKey ]})] /\
  market_data.sent (market_data.get_ticker_details self symbol w).2 =
    market_data.sent w ++
    [("https://api.polygon.io/v3/reference/tickers/" +:+ symbol,
      {[ "apiKey" := apiKey ]})].
Proof.
  cbv zeta. repeat split.
  - rewrite get_real_time_quote_run.
    pose proof (fetch_sent (market_data.quote_request (market_data.new key) symbol) w)
      as [Hsent _].
    destruct (market_data.fetch _ w) as [[data|e] w']; [done|].
    by destruct (market_data.RequestException e).
  - rewrite get_historical_data_run.
    pose proof (fetch_sent (market_data.history_request (market_data.new key)
                              symbol start_date end_date timespan) w) as [Hsent _].
    destruct (market_data.fetch _ w) as [[data|e] w'].
    + pose proof (frame_of_sent symbol data w') as Hframe.
      destruct (market_data.frame_of symbol data w') as [[r|e] w2];
        simpl in *; [by rewrite Hframe|].
      destruct (market_data.RequestException e); simpl; by rewrite Hframe.
    + by destruct (market_data.RequestException e).
  - rewrite get_market_status_run.
    pose proof (fetch_sent (market_data.status_request (market_data.new key)) w)
      as [Hsent _].
    destruct (market_data.fetch _ w) as [[data|e] w']; [done|].
    by destruct (market_data.RequestException e).
  - rewrite get_ticker_details_run.
    pose proof (fetch_sent (market_data.details_request (market_data.new key) symbol) w)
      as [Hsent _].
    destruct (market_data.fetch _ w) as [[data|e] w']; [done|].
    by destruct (market_data.RequestException e).
Qed.

Lemma json_method_propagates rq (line : Exception -> string) w e :
  market_data.RequestException e = false ->
  (market_data.fetch rq w).1 = Raised e ->
  (match market_data.fetch rq w with
   | (Returned data, w') => (Returned data, w')
   | (Raised e, w') =>
       if market_data.RequestException e
       then (Returned VNone, market_data.printed w' (line e))
       else (Raised e, w')
   end).1 = Raised e /\
  market_data.stdout
    (match market_data.fetch rq w with
     | (Returned data, w') => (Returned data, w')
     | (Raised e, w') =>
         if market_data.RequestException e
         then (Returned VNone, market_data.printed w' (line e))
         else (Raised e, w')
     end).2 = market_data.stdout w.
Proof.
  intros Hclass.
  pose proof (fetch_sent rq w) as [_ Hout].
  destruct (market_data.fetch rq w) as [[data|e0] w']; simpl in *; [done|].
  intros [= ->]. by rewrite Hclass.
Qed.

(** X13: when the request, the check of its status or the decoding of its
    body raises a [RequestException], the method does not raise: it prints
    one line, its own message followed by the text of the exception, and
    returns [None]. *)
Theorem request_failure_is_reported self symbol start_date end_date timespan w e :
  market_data.RequestException e = true ->
  ((market_data.fetch (market_data.quote_request self symbol) w).1 = Raised e ->
   market_data.get_real_time_quote self symbol w =
     (Returned VNone,
      market_data.printed (market_data.fetch (market_data.quote_request self symbol) w).2
        ("Error fetching quote for " +:+ symbol +:+ ": " +:+ exc_str e))) /\
  ((market_data.fetch
      (market_data.history_request self symbol start_date end_date timespan) w).1 = Raised e ->
   market_data.get_historical_data self symbol start_date end_date timespan w =
     (Returned None,
      market_data.printed
        (market_data.fetch
           (market_data.history_request self symbol start_date end_date timespan) w).2
        ("Error fetching historical data for " +:+ symbol +:+ ": " +:+ exc_str e))) /\
  ((market_data.fetch (market_data.status_request self) w).1 = Raised e ->
   market_data.get_market_status self w =
     (Returned VNone,
      market_data.printed (market_data.fetch (market_data.status_request self) w).2
        ("Error fetching market status: " +:+ exc_str e))) /\
  ((market_data.fetch (market_data.details_request self symbol) w).1 = Raised e ->
   market_data.get_ticker_details self symbol w =
     (Returned VNone,
      market_data.printed (market_data.fetch (market_data.details_request self symbol) w).2
        ("Error fetching ticker details for " +:+ symbol +:+ ": " +:+ exc_str e))).
Proof.
  intros Hclass. repeat split.
  - rewrite get_real_time_quote_run.
    destruct (market_data.fetch _ w) as [[data|e0] w']; simpl; [done|].
    intros [= ->]. by rewrite Hclass.
  - rewrite get_historical_data_run.
    destruct (market_data.fetch _ w) as [[data|e0] w']; simpl; [done|].
    intros [= ->]. by rewrite Hclass.
  - rewrite get_market_status_run.
    destruct (market_data.fetch _ w) as [[data|e0] w']; simpl; [done|].
    intros [= ->]. by rewrite Hclass.
  - rewrite get_ticker_details_run.
    destruct (market_data.fetch _ w) as [[data|e0] w']; simpl; [done|].
    intros [= ->]. by rewrite Hclass.
Qed.

(** X14: an exception that is not a [RequestException] is not caught: it
    reaches the caller of the method, and nothing is printed.  For
    [get_historical_data] this includes a body that is no [dict] (the call
    of [get] on it fails) and a failure while the data frame is built. *)
Theorem other_failure_propagates self symbol start_date end_date timespan w e :
  market_data.RequestException e = false ->
  ((market_data.fetch (market_data.quote_request self symbol) w).1 = Raised e ->
   (market_data.get_real_time_quote self symbol w).1 = Raised e /\
   market_data.stdout (market_data.get_real_time_quote self symbol w).2 =
     market_data.stdout w) /\
  ((market_data.fetch (market_data.status_request self) w).1 = Raised e ->
   (market_data.get_market_status self w).1 = Raised e /\
   market_data.stdout (market_data.get_market_status self w).2 = market_data.stdout w) /\
  ((market_data.fetch (market_data.details_request self symbol) w).1 = Raised e ->
   (market_data.get_ticker_details self symbol w).1 = Raised e /\
   market_data.stdout (market_data.get_ticker_details self symbol w).2 =
     market_data.stdout w) /\
  (let history := market_data.history_request self symbol start_date end_date timespan in
   ((market_data.fetch history w).1 = Raised e \/
    (exists data,
       (market_data.fetch history w).1 = Returned data /\
       e = market_data.AttributeError data "get" /\
       forall d, data <> VDict d) \/
    (exists d rows,
       (market_data.fetch history w).1 = Returned (VDict d) /\
       d !! "results" = Some rows /\
       market_data.truthy rows = true /\
       market_data.build_frame rows = Raised e)) ->
   (market_data.get_historical_data self symbol start_date end_date timespan w).1 =
     Raised e /\
   market_data.stdout
     (market_data.get_historical_data self symbol start_date end_date timespan w).2 =
     market_data.stdout w).
Proof.
  intros Hclass. split; [|split; [|split]].
  - intros Hfetch. rewrite get_real_time_quote_run.
    by apply json_method_propagates.
  - intros Hfetch. rewrite get_market_status_run.
    by apply json_method_propagates.
  - intros Hfetch. rewrite get_ticker_details_run.
    by apply json_method_propagates.
  - cbv zeta. intros Hsource. rewrite get_historical_data_run.
    pose proof (fetch_sent (market_data.history_request self symbol start_date
                              end_date timespan) w) as [_ Hout].
    destruct (market_data.fetch _ w) as [[data|e0] w']; simpl in *.
    + destruct Hsource as [Hfetch|[(data' & [= <-] & -> & Hnodict)|
                                   (d & rows & [= ->] & Hrows & Htruthy & Hframe)]];
        [done| |].
      * destruct data as [| | | | | |d]; simpl; try (by rewrite Hclass).
        by destruct (Hnodict d).
      * unfold market_data.frame_of, dict_get.
        rewrite Hrows, Htruthy, Hframe. by rewrite Hclass.
    + destruct Hsource as [[= ->]|[(data' & Hfetch & _)|(d & rows & Hfetch & _)]];
        [|done|done].
      by rewrite Hclass.
Qed.

(** X15: [get_historical_data] decides on the truth value of the body's
    [results].  When the body is a [dict] whose [results] is absent, null,
    an empty list or otherwise false, the method prints "No data found
    for" and the symbol and returns [None]; when [results] is true, the
    method returns the data frame built from it and prints nothing. *)
Theorem historical_data_by_results self symbol start_date end_date timespan w d w' :
  market_data.fetch
    (market_data.history_request self symbol start_date end_date timespan) w =
    (Returned (VDict d), w') ->
  (market_data.truthy (dict_get d "results" VNone) = false ->
   market_data.get_historical_data self symbol start_date end_date timespan w =
     (Returned None, market_data.printed w' ("No data found for " +:+ symbol))) /\
  (d !! "results" = None \/ d !! "results" = Some VNone \/
   d !! "results" = Some (VList []) ->
   market_data.truthy (dict_get d "results" VNone) = false) /\
  (forall rows df,
     d !! "results" = Some rows ->
     market_data.truthy rows = true ->
     market_data.build_frame rows = Returned df ->
     market_data.get_historical_data self symbol start_date end_date timespan w =
       (Returned (Some df), w')).
Proof.
  intros Hfetch. rewrite get_historical_data_run, Hfetch.
  unfold market_data.frame_of, dict_get.
  split; [|split].
  - by intros ->.
  - by intros [->|[->| ->]].
  - intros rows df -> -> ->. done.
Qed.

End Market.

(** ** Examples on the scripted network *)

(** No response to come: the connection fails and the method reports it. *)
Lemma quote_connection_failure_example :
  let w := market_data.start [] in
  let self := market_data.new VNone in
  market_data.RequestException (Requests := market_data.scripted)
    market_data.ConnectionError = true /\
  (market_data.fetch (market_data.quote_request self "AAPL") w).1 =
    Raised market_data.ConnectionError /\
  (market_data.get_real_time_quote self "AAPL" w).1 = Returned VNone /\
  market_data.stdout (market_data.get_real_time_quote self "AAPL" w).2 =
    ["Error fetching quote for AAPL: Connection refused"].
Proof.
  intros w self.
  assert (Hclass : market_data.RequestException (Requests := market_data.scripted)
                     market_data.ConnectionError = true) by reflexivity.
  assert (Hfetch : (market_data.fetch (market_data.quote_request self "AAPL") w).1 =
                   Raised market_data.ConnectionError) by reflexivity.
  split; [exact Hclass|]. split; [exact Hfetch|].
  destruct (request_failure_is_reported (H := market_data.scripted)
              self "AAPL" "" "" None w market_data.ConnectionError Hclass)
    as (Hquote & _).
  rewrite (Hquote Hfetch). split; reflexivity.
Defined.

(** A body that cannot be decoded, with an exception outside the request
    exceptions: the method raises. *)
Lemma status_decoding_failure_example :
  let e := {| exc_class := "ValueError"; exc_str := "Expecting value" |} in
  let w := market_data.start
             [{| market_data.raise_for_status := Returned tt;
                 market_data.json := Raised e |}] in
  let self := market_data.new VNone in
  market_data.RequestException (Requests := market_data.scripted) e = false /\
  (market_data.fetch (market_data.status_request self) w).1 = Raised e /\
  (market_data.get_market_status self w).1 = Raised e /\
  market_data.stdout (market_data.get_market_status self w).2 = [].
Proof.
  intros e w self.
  assert (Hclass : market_data.RequestException (Requests := market_data.scripted) e = false)
    by reflexivity.
  assert (Hfetch : (market_data.fetch (market_data.status_request self) w).1 = Raised e)
    by reflexivity.
  split; [exact Hclass|]. split; [exact Hfetch|].
  destruct (other_failure_propagates (H := market_data.scripted)
              self "" "" "" None w e Hclass) as (_ & Hstatus & _).
  exact (Hstatus Hfetch).
Defined.

(** A history with an empty list of results. *)
Lemma empty_history_example :
  let d : gmap string value := {[ "results" := VList [] ]} in
  let w := market_data.start [market_data.ok_response (VDict d)] in
  let self := market_data.new VNone in
  let w' := @market_data.Build_state market_data.scripted []
              [market_data.history_request self "TSLA" "2024-01-01" "2024-01-31" None] [] in
  market_data.fetch
    (market_data.history_request self "TSLA" "2024-01-01" "2024-01-31" None) w =
    (Returned (VDict d), w') /\
  market_data.get_historical_data self "TSLA" "2024-01-01" "2024-01-31" None w =
    (Returned None, market_data.printed w' "No data found for TSLA").
Proof.
  intros d w self w'.
  assert (Hfetch : market_data.fetch
            (market_data.history_request self "TSLA" "2024-01-01" "2024-01-31" None) w =
            (Returned (VDict d), w')) by reflexivity.
  split; [exact Hfetch|].
  destruct (historical_data_by_results (H := market_data.scripted)
              self "TSLA" "2024-01-01" "2024-01-31" None w d w' Hfetch)
    as (Hnone & _ & _).
  exact (Hnone eq_refl).
Defined.

(** * The environment test *)

Section Environment_test.
Context `{test_mcp_server.Platform}.

Ltac unfold_script :=
  unfold test_mcp_server.script, test_mcp_server.main,
    test_mcp_server.test_environment, test_mcp_server.test_openai_connection,
    test_mcp_server.check_package, test_mcp_server.try_except_ImportError,
    test_mcp_server.try_except, test_mcp_server.bind, test_mcp_server.lift,
    test_mcp_server.print, test_mcp_server.create_call, test_mcp_server.first,
    test_mcp_server.ret, test_mcp_server.environment_ok in *.

(** All the ways the key and the three imports can turn out. *)
Ltac environment_cases environ :=
  unfold_script; cbv zeta; cbn [forallb];
  destruct (py_not (getenv environ "OPENAI_API_KEY")) eqn:?Hkey;
  destruct (test_mcp_server.import_module "openai") as [[]|?e] eqn:?Hopenai;
  destruct (test_mcp_server.import_module "mcp") as [[]|?e] eqn:?Hmcp;
  destruct (test_mcp_server.import_module "dotenv") as [[]|?e] eqn:?Hdotenv;
  simpl in *;
  repeat match goal with
         | |- context [test_mcp_server.ImportError ?e] =>
             destruct (test_mcp_server.ImportError e) eqn:?; simpl in *
         end.

(** A printed line that differs from the given one in its first bytes. *)
Ltac other_line :=
  let Heq := fresh in
  intros Heq; vm_compute in Heq; discriminate Heq.

Ltac not_printed :=
  rewrite ?not_elem_of_cons;
  repeat split; try done; try other_line; try apply not_elem_of_nil.

(** X16: the script sends at most one request to the service, and none at
    all unless the key is set and the three packages can be imported:
    with a missing key or a missing package the process ends with exit
    code 1 before the connection test starts, whose first line is not
    printed. *)
Theorem no_request_unless_environment_ok environ :
  (test_mcp_server.environment_ok environ = false ->
   test_mcp_server.requests (test_mcp_server.script environ).2 = [] /\
   exit_code (test_mcp_server.script environ).1 = 1 /\
   test_mcp_server.newline +:+ "Testing OpenAI API connection..." ∉
     test_mcp_server.out (test_mcp_server.script environ).2) /\
  (test_mcp_server.requests (test_mcp_server.script environ).2 = [] \/
   test_mcp_server.requests (test_mcp_server.script environ).2 =
     [{[ "model" := VStr "gpt-3.5-turbo";
         "messages" :=
           VList [VDict {[ "role" := VStr "user";
                           "content" := VStr "Hello, this is a test message." ]}];
         "max_tokens" := VInt 10 ]}]).
Proof.
  environment_cases environ;
    try (split; [intros _; split; [done|]; split; [done|]; not_printed|by left]).
  split; [done|].
  destruct (test_mcp_server.new_client _) as [[]|e]; simpl; [|by left].
  destruct (test_mcp_server.create _) as [response|e]; simpl; [|by right].
  destruct (openai.choices response); simpl; by right.
Qed.



(** X19: the check for the package [dotenv] can never fail in a run of the
    script, which imports that package before anything else: the line
    "python-dotenv package not installed" is never printed. *)
Theorem dotenv_is_never_reported_missing environ :
  "❌ python-dotenv package not installed" ∉
    test_mcp_server.out (test_mcp_server.script environ).2.
Proof.
  environment_cases environ; try not_printed.
  destruct (test_mcp_server.new_client _) as [[]|e]; simpl; [|not_printed].
  destruct (test_mcp_server.create _) as [response|e]; simpl; [|not_printed].
  destruct (openai.choices response) as [|choice rest]; simpl; not_printed.
Qed.

End Environment_test.

(** * Further examples *)

(** An explicit null for [model] reaches the backend as [None]; the default
    is not put in its place. *)
Lemma null_model_example :
  let arguments : gmap string value := {[ "message" := VStr "hi"; "model" := VNone ]} in
  arguments !! "model" = Some VNone /\
  exists kw,
    calls (handle_chat_completion (H := scripted) arguments (start [])).2 =
      [{| method := chat_completions_create; kwargs := kw |}] /\
    kw !! "model" = Some VNone.
Proof.
  intros arguments.
  assert (Hkey : arguments !! "model" = Some VNone) by reflexivity.
  split; [exact Hkey|].
  destruct (present_values_are_passed_on (H := scripted) arguments (start [])
              "model" VNone Hkey) as (kw & _ & Hcalls & _ & Hmodel & _).
  exists kw. split; [exact Hcalls|]. apply Hmodel.
  rewrite !elem_of_cons. by left.
Defined.

(** A completion without choices, through the dispatcher's handler. *)
Lemma empty_reply_example :
  let reply := {| openai.choices := [] |} in
  let w := start [chat_reply (Returned reply)] in
  (handle_analyze_text (H := scripted) ∅ w).1 =
    Returned {| content := [{| type := "text";
                               text := "Error analyzing text: list index out of range" |}];
                isError := true |}.
Proof.
  intros reply w.
  destruct (empty_reply_is_reported (H := scripted) ∅ w) as (_ & _ & Hanalyze).
  exact (Hanalyze reply [] eq_refl eq_refl).
Defined.

(** A completion whose only choice has no content. *)
Lemma missing_content_example :
  let choice := {| openai.message := {| openai.content := None |} |} in
  let reply := {| openai.choices := [choice] |} in
  let w := start [chat_reply (Returned reply)] in
  (handle_chat_completion (H := scripted) ∅ w).1 =
    Returned {| content := [{| type := "text";
                               text := "Error in chat completion: 1 validation error for TextContent" |}];
                isError := true |}.
Proof.
  intros choice reply w.
  destruct (missing_content_is_reported (H := scripted) ∅ w) as (Hchat & _).
  exact (Hchat reply choice [] [] eq_refl eq_refl eq_refl).
Defined.

(** An image without a URL. *)
Lemma missing_url_example :
  let image := {| openai.url := None |} in
  let reply := {| openai.data := [image] |} in
  let w := start [image_reply (Returned reply)] in
  images_create (Externals := scripted) (generate_image_kwargs ∅) (backend w) =
    (Returned reply, []) /\
  (handle_generate_image (H := scripted) ∅ w).1 =
    Returned {| content := [{| type := "text"; text := "Generated image: None" |}];
                isError := false |}.
Proof.
  intros image reply w.
  assert (Hreply : images_create (Externals := scripted) (generate_image_kwargs ∅)
                     (backend w) = (Returned reply, [])) by reflexivity.
  split; [exact Hreply|].
  exact (missing_url_is_not_reported (H := scripted) ∅ w reply image [] []
           Hreply eq_refl eq_refl).
Defined.

(** The declared default of [size], put in the bundle by hand. *)
Lemma declared_default_example :
  let w := start [image_reply (Returned {| openai.data := [] |})] in
  exists catalog tool,
    handle_list_tools (H := scripted) w = (Returned catalog, w) /\
    find_tool catalog "generate_image" = Some tool /\
    declared_default tool "size" = Some (VStr "1024x1024") /\
    (∅ : gmap string value) !! "size" = None /\
    handle_call_tool "generate_image" {[ "size" := VStr "1024x1024" ]} w =
      handle_call_tool "generate_image" ∅ w.
Proof.
  intros w.
  destruct (handle_list_tools (H := scripted) w) as [[catalog|e] w'] eqn:Hcatalog;
    [|discriminate Hcatalog].
  assert (Hw : w' = w) by (by injection Hcatalog).
  subst w'.
  destruct (find_tool catalog "generate_image") as [tool|] eqn:Hfind;
    [|by injection Hcatalog as <-].
  assert (Hdefault : declared_default tool "size" = Some (VStr "1024x1024")).
  { injection Hcatalog as <-. injection Hfind as <-. by vm_compute. }
  assert (Hnone : (∅ : gmap string value) !! "size" = None) by reflexivity.
  exists catalog, tool. split; [done|]. split; [done|]. split; [done|].
  split; [done|].
  exact (declared_defaults_are_applied (H := scripted) "generate_image" "size"
           (VStr "1024x1024") ∅ w catalog tool Hcatalog Hfind Hdefault Hnone).
Defined.

(** An advertised name and a name that is not. *)
Lemma advertised_example :
  let w := start [] in
  exists catalog,
    handle_list_tools (H := scripted) w = (Returned catalog, w) /\
    ("analyze_text" ∈ tool_names catalog <->
     exists c, calls (handle_call_tool "analyze_text" ∅ w).2 = calls w ++ [c]) /\
    ("summarize" ∈ tool_names catalog <->
     exists c, calls (handle_call_tool "summarize" ∅ w).2 = calls w ++ [c]).
Proof.
  intros w.
  destruct (handle_list_tools (H := scripted) w) as [[catalog|e] w'] eqn:Hcatalog;
    [|discriminate Hcatalog].
  assert (Hw : w' = w) by (by injection Hcatalog).
  subst w'.
  exists catalog. split; [done|]. split.
  - exact (advertised_iff_routed (H := scripted) "analyze_text" ∅ w catalog Hcatalog).
  - exact (advertised_iff_routed (H := scripted) "summarize" ∅ w catalog Hcatalog).
Defined.


(** The environment test without the package [mcp]: one problem reported,
    no request sent. *)
Example missing_package_example :
  test_mcp_server.script (H := test_mcp_server.without_mcp)
    {[ "OPENAI_API_KEY" := "sk-test" ]} =
    (SystemExit 1,
     @test_mcp_server.Build_state
       ["OpenAI MCP Server Test"; "==============================";
        "Testing environment setup..."; "✅ OPENAI_API_KEY found";
        "✅ openai package installed"; "❌ mcp package not installed";
        test_mcp_server.newline +:+
        "❌ Environment setup failed. Please fix the issues above."]
       []) /\
  String.length "==============================" = 30%nat.
Proof. split; reflexivity. Qed.
